(** * Solana trading bot: strategy loop and swap execution

    A shallow embedding of [Solana-Trading-Bot.py].

    - Python [float] is IEEE 754 binary64: Rocq's primitive [float], with
      the same comparison rules (every comparison with NaN is false).
    - What [requests], [json], [decimal], [base58], [solders] and the Jupiter
      SDK answer is not decided by the program: those calls are fields of the
      records [Host] and [Net], and every theorem holds for all of them.
    - Raising is explicit ([result]); logging, replies and calls that leave
      the process are recorded as a list of [event]s.
    - [STATE] is threaded through the monad [M]; a raise keeps the writes
      made before it, as in Python. *)

From Stdlib Require Import Floats ZArith Bool List String Ascii Lia.
Import ListNotations.

#[local] Set Warnings "-register-all".

Open Scope string_scope.
Open Scope Z_scope.

(** ** Python values *)

(** What [r.json()] and [json.load] return, and what the handlers pass around. *)
Inductive json : Type :=
| JNull
| JBool (b : bool)
| JInt (z : Z)
| JFloat (f : float)
| JStr (s : string)
| JList (l : list json)
| JDict (kv : list (string * json)).

(** [bool(x)] for a float: [x != 0.0], so NaN is true and [-0.0] is false. *)
Definition float_truthy (f : float) : bool := negb (PrimFloat.eqb f 0%float).

(** [bool(v)]. *)
Definition truthy (v : json) : bool :=
  match v with
  | JNull => false
  | JBool b => b
  | JInt z => negb (z =? 0)
  | JFloat f => float_truthy f
  | JStr s => negb (String.eqb s "")
  | JList l => match l with [] => false | _ :: _ => true end
  | JDict kv => match kv with [] => false | _ :: _ => true end
  end.

(** Exceptions below [Exception]; [Other] names the class of one raised by a
    library. *)
Inductive exn : Type :=
| RuntimeError (msg : string)
| AttributeError
| TypeError
| ValueError
| IndexError
| Other (cls : string).

Inductive result (A : Type) : Type :=
| Ok (a : A)
| Raise (e : exn).
Arguments Ok {A} a.
Arguments Raise {A} e.

Definition bindR {A B} (c : result A) (k : A -> result B) : result B :=
  match c with
  | Ok a => k a
  | Raise e => Raise e
  end.

Declare Scope res_scope.
Delimit Scope res_scope with res.
Notation "x <- c ;; k" := (bindR c (fun x => k))
  (at level 61, c at next level, right associativity) : res_scope.

Definition is_raise {A} (r : result A) : bool :=
  match r with Ok _ => false | Raise _ => true end.

(** [d.get(key)] on a dict built from JSON: the first binding, else [None]. *)
Fixpoint dict_get (kv : list (string * json)) (key : string) : json :=
  match kv with
  | [] => JNull
  | (k, v) :: rest => if String.eqb k key then v else dict_get rest key
  end.

(** [v.get(key)]: only a dict has the method. *)
Definition py_get (v : json) (key : string) : result json :=
  match v with
  | JDict kv => Ok (dict_get kv key)
  | _ => Raise AttributeError
  end.

(** One element of the iterable given to [bytes(...)]. *)
Definition byte_of_json (v : json) : result Z :=
  match v with
  | JInt z => if (0 <=? z) && (z <? 256) then Ok z else Raise ValueError
  | JBool b => Ok (if b then 1 else 0)
  | _ => Raise TypeError
  end.

Fixpoint bytes_of_list (l : list json) : result (list Z) :=
  match l with
  | [] => Ok []
  | v :: rest =>
      (b <- byte_of_json v ;;
       bs <- bytes_of_list rest ;;
       Ok (b :: bs))%res
  end.

(** [bytes(arr)]: an int gives that many zero bytes (memory permitting) and
    is refused when negative or beyond the largest index, a list of ints in
    [0, 256) gives those bytes, a dict iterates over its keys (strings). *)
Definition py_bytes (arr : json) : result (list Z) :=
  match arr with
  | JInt z =>
      if z <? 0 then Raise ValueError
      else if 2 ^ 63 <=? z then Raise (Other "OverflowError")
      else Ok (repeat 0 (Z.to_nat z))
  | JBool b => Ok (if b then [0] else [])
  | JList l => bytes_of_list l
  | JDict [] => Ok []
  | _ => Raise TypeError
  end.

(** ** Configuration *)

Record Keypair : Type := mkKeypair {
  secret : list Z;
  pubkey : string
}.

(** The module-level constants read from the environment. [os.getenv] gives
    [None] for an unset variable. *)
Record Config : Type := mkConfig {
  TELEGRAM_TOKEN : option string;
  PRIVATE_KEY_JSON : option string;
  PRIVATE_KEY_B58 : option string;
  DRY_RUN : bool;
  HAVE_JUPITER_SDK : bool
}.

(** Truth value of an environment variable: set and not empty. *)
Definition env_truthy (v : option string) : bool :=
  match v with
  | Some s => negb (String.eqb s "")
  | None => false
  end.

Definition env_str (v : option string) : string :=
  match v with Some s => s | None => "" end.

(** Library calls of the host. *)
Record Host : Type := mkHost {
  import_base58 : result unit;
  b58decode : string -> result (list Z);
  Keypair_from_bytes : list Z -> result Keypair;
  path_exists : string -> bool;
  json_load : string -> result json;
  float_of_str : string -> result float;
  (** [int(Decimal(x) * (10 ** 6))] *)
  usdc_units : float -> result Z;
  base64_b64decode : json -> result (list Z);
  (** the three imports inside [buy_with_usdc] *)
  import_VersionedTransaction : result unit;
  import_SKeypair : result unit;
  import_TxOpts : result unit;
  VersionedTransaction_from_bytes : list Z -> result (list Z)
}.

Definition NO_KEY_MSG : string :=
  "No PRIVATE_KEY configured. Set PRIVATE_KEY_JSON or PRIVATE_KEY_B58".

Definition load_keypair (cfg : Config) (h : Host) : result Keypair :=
  if env_truthy (PRIVATE_KEY_B58 cfg) then
    (_ <- import_base58 h ;;
     raw <- b58decode h (env_str (PRIVATE_KEY_B58 cfg)) ;;
     Keypair_from_bytes h raw)%res
  else if env_truthy (PRIVATE_KEY_JSON cfg)
          && path_exists h (env_str (PRIVATE_KEY_JSON cfg)) then
    (arr <- json_load h (env_str (PRIVATE_KEY_JSON cfg)) ;;
     secret <- py_bytes arr ;;
     Keypair_from_bytes h secret)%res
  else Raise (RuntimeError NO_KEY_MSG).

(** The configuration with one source removed. *)
Definition only_b58 (cfg : Config) : Config :=
  mkConfig (TELEGRAM_TOKEN cfg) None (PRIVATE_KEY_B58 cfg) (DRY_RUN cfg)
           (HAVE_JUPITER_SDK cfg).
Definition only_json (cfg : Config) : Config :=
  mkConfig (TELEGRAM_TOKEN cfg) (PRIVATE_KEY_JSON cfg) None (DRY_RUN cfg)
           (HAVE_JUPITER_SDK cfg).

(** The keypair file is named and is there. *)
Definition json_usable (cfg : Config) (h : Host) : bool :=
  env_truthy (PRIVATE_KEY_JSON cfg)
  && path_exists h (env_str (PRIVATE_KEY_JSON cfg)).

(** Exactly one of the two sources is configured: the encoded secret is set,
    or the keypair file is named and is there, and not both. *)
Definition exactly_one_source (cfg : Config) (h : Host) : bool :=
  xorb (env_truthy (PRIVATE_KEY_B58 cfg)) (json_usable cfg h).

(** ** Effects *)

(** What an execution leaves behind, in program order. A log record keeps its
    format string and arguments. *)
Inductive event : Type :=
| LogInfo (fmt : string) (args : list json)
| LogException (fmt : string) (e : exn)
| Reply (text : string) (args : list json)
(** GET [JUP_QUOTE_API] with [amount] *)
| QuoteRequest (amount : Z)
(** POST [JUP_SWAP_API]: the unsigned transaction for the signer's public key *)
| SwapBuildRequest (quote : json) (user_pubkey : string)
(** [Jupiter(async_client, keypair).swap_from_quote]: the SDK signs and sends *)
| SdkSwap (kp : Keypair) (quote : json)
(** [VersionedTransaction.from_bytes] *)
| DeserializeTx (tx_bytes : list Z)
| Sleep (seconds : Z).

(** Answers of the network during one execution. *)
Record Net : Type := mkNet {
  fetch_sol_24h_change_and_price : result (float * float);
  jupiter_quote : Z -> result json;
  jupiter_swap : json -> string -> result json;
  sdk_swap_from_quote : json -> result json
}.

(** Code that does not touch [STATE]: a trace and a value or an exception. *)
Definition io (A : Type) : Type := list event * result A.

Definition retIO {A} (a : A) : io A := ([], Ok a).
Definition raiseIO {A} (e : exn) : io A := ([], Raise e).
Definition emit (ev : event) : io unit := ([ev], Ok tt).
Definition liftR {A} (r : result A) : io A := ([], r).

Definition bindIO {A B} (c : io A) (k : A -> io B) : io B :=
  match c with
  | (t, Ok a) => let '(t', r) := k a in ((t ++ t')%list, r)
  | (t, Raise e) => (t, Raise e)
  end.

(** [try: c except Exception as e: h e] *)
Definition tryIO {A} (c : io A) (h : exn -> io A) : io A :=
  match c with
  | (t, Ok a) => (t, Ok a)
  | (t, Raise e) => let '(t', r) := h e in ((t ++ t')%list, r)
  end.

Declare Scope io_scope.
Delimit Scope io_scope with io.
Notation "x <- c ;; k" := (bindIO c (fun x => k))
  (at level 61, c at next level, right associativity) : io_scope.
Notation "c ;; k" := (bindIO c (fun _ => k))
  (at level 61, right associativity) : io_scope.

Definition get_jupiter_quote (n : Net) (amount_in_native_int : Z) : io json :=
  (emit (QuoteRequest amount_in_native_int) ;;
   liftR (jupiter_quote n amount_in_native_int))%io.

Definition request_jupiter_swap (n : Net) (quote_response : json)
    (user_pubkey_str : string) : io json :=
  (emit (SwapBuildRequest quote_response user_pubkey_str) ;;
   liftR (jupiter_swap n quote_response user_pubkey_str))%io.

Definition BUY_REQUESTED : string :=
  "BUY requested: USDC amount = %s (this is the amount token units, e.g., 1 USDC => 1)".
Definition DRY_RUN_MSG : string :=
  "DRY_RUN is enabled — not executing on-chain. Simulating buy.".
Definition NO_QUOTE_MSG : string := "No quote data returned from Jupiter".
Definition USING_SDK_MSG : string :=
  "Using jupiter-python-sdk to execute swap (SDK handles signing + sending).".
Definition NO_PAYLOAD_MSG : string :=
  "Jupiter /swap did not return a transaction payload".
Definition MANUAL_SIGNING_MSG : string :=
  "Manual signing of Jupiter versioned txns is advanced. Use jupiter-python-sdk or follow Jupiter docs. See comments in code.".

(** The dict returned in dry-run mode. *)
Definition simulated (usdc_amount : float) : json :=
  JDict [("simulated", JBool true); ("usdc", JFloat usdc_amount)].

(** [Jupiter(async_client, keypair)], before the [try], stores its arguments
    and is taken to return; [SdkSwap] is the call of [swap_from_quote] on it.
    The three imports of the manual path are steps of their own: each can
    raise when its module is not there. *)
Definition buy_with_usdc (cfg : Config) (h : Host) (n : Net)
    (keypair : Keypair) (usdc_amount : float) : io json :=
  (emit (LogInfo BUY_REQUESTED [JFloat usdc_amount]) ;;
   if DRY_RUN cfg then
     emit (LogInfo DRY_RUN_MSG []) ;;
     retIO (simulated usdc_amount)
   else
     amount_int <- liftR (usdc_units h usdc_amount) ;;
     quote <- get_jupiter_quote n amount_int ;;
     data <- liftR (py_get quote "data") ;;
     if negb (truthy data) then raiseIO (RuntimeError NO_QUOTE_MSG)
     else if HAVE_JUPITER_SDK cfg then
       emit (LogInfo USING_SDK_MSG []) ;;
       tryIO
         (emit (SdkSwap keypair quote) ;;
          liftR (sdk_swap_from_quote n quote))
         (fun e => emit (LogException "SDK swap failed: %s" e) ;; raiseIO e)
     else
       swap_resp <- request_jupiter_swap n quote (pubkey keypair) ;;
       a <- liftR (py_get swap_resp "swapTransaction") ;;
       tx_b64 <- (if truthy a then retIO a
                  else liftR (py_get swap_resp "swapTransactionSerialized")) ;;
       if negb (truthy tx_b64) then raiseIO (RuntimeError NO_PAYLOAD_MSG)
       else
         tx_bytes <- liftR (base64_b64decode h tx_b64) ;;
         liftR (import_VersionedTransaction h) ;;
         liftR (import_SKeypair h) ;;
         liftR (import_TxOpts h) ;;
         emit (DeserializeTx tx_bytes) ;;
         vtx <- liftR (VersionedTransaction_from_bytes h tx_bytes) ;;
         raiseIO (RuntimeError MANUAL_SIGNING_MSG))%io.

(** The events of the Transaction Builder/Signer: asking for the transaction
    to sign, handing the keypair to the SDK, deserialising the payload. *)
Definition signer_event (ev : event) : bool :=
  match ev with
  | SwapBuildRequest _ _ | SdkSwap _ _ | DeserializeTx _ => true
  | _ => false
  end.

(** Events that leave the process. *)
Definition external_event (ev : event) : bool :=
  match ev with
  | QuoteRequest _ => true
  | _ => signer_event ev
  end.

(** ** Strategy state *)

(** The dict [STATE]. [last_buy_price] is [None] or a float. *)
Record State : Type := mkState {
  buy_drop_pct : float;
  take_profit_pct : float;
  holding : bool;
  last_buy_price : option float;
  position_amount_sol : float
}.

Definition STATE : State :=
  {| buy_drop_pct := 5%float;
     take_profit_pct := 2%float;
     holding := false;
     last_buy_price := None;
     position_amount_sol := 0%float |}.

Definition set_buy_drop_pct (v : float) (s : State) : State :=
  mkState v (take_profit_pct s) (holding s) (last_buy_price s)
          (position_amount_sol s).
Definition set_take_profit_pct (v : float) (s : State) : State :=
  mkState (buy_drop_pct s) v (holding s) (last_buy_price s)
          (position_amount_sol s).
Definition set_holding (v : bool) (s : State) : State :=
  mkState (buy_drop_pct s) (take_profit_pct s) v (last_buy_price s)
          (position_amount_sol s).
Definition set_last_buy_price (v : option float) (s : State) : State :=
  mkState (buy_drop_pct s) (take_profit_pct s) (holding s) v
          (position_amount_sol s).
Definition set_position_amount_sol (v : float) (s : State) : State :=
  mkState (buy_drop_pct s) (take_profit_pct s) (holding s) (last_buy_price s) v.

Definition json_of_price (p : option float) : json :=
  match p with Some f => JFloat f | None => JNull end.

(** The dict as [json.dumps] sees it. *)
Definition state_json (s : State) : json :=
  JDict [("buy_drop_pct", JFloat (buy_drop_pct s));
         ("take_profit_pct", JFloat (take_profit_pct s));
         ("holding", JBool (holding s));
         ("last_buy_price", json_of_price (last_buy_price s));
         ("position_amount_sol", JFloat (position_amount_sol s))].

(** Code that reads and writes [STATE]. *)
Definition M (A : Type) : Type := State -> list event * State * result A.

Definition retM {A} (a : A) : M A := fun s => ([], s, Ok a).
Definition getM : M State := fun s => ([], s, Ok s).
Definition modifyM (f : State -> State) : M unit := fun s => ([], f s, Ok tt).
Definition liftIO {A} (c : io A) : M A := fun s => (fst c, s, snd c).

Definition bindM {A B} (c : M A) (k : A -> M B) : M B :=
  fun s =>
    match c s with
    | (t, s1, Ok a) => let '(t', s2, r) := k a s1 in ((t ++ t')%list, s2, r)
    | (t, s1, Raise e) => (t, s1, Raise e)
    end.

(** [try: c except Exception as e: h e]; the writes of [c] stay. *)
Definition tryM {A} (c : M A) (h : exn -> M A) : M A :=
  fun s =>
    match c s with
    | (t, s1, Ok a) => (t, s1, Ok a)
    | (t, s1, Raise e) => let '(t', s2, r) := h e s1 in ((t ++ t')%list, s2, r)
    end.

Declare Scope M_scope.
Delimit Scope M_scope with M.
Notation "x <- c ;; k" := (bindM c (fun x => k))
  (at level 61, c at next level, right associativity) : M_scope.
Notation "c ;; k" := (bindM c (fun _ => k))
  (at level 61, right associativity) : M_scope.

Definition emitM (ev : event) : M unit := liftIO (emit ev).
Definition whenM (b : bool) (c : M unit) : M unit := if b then c else retM tt.

Definition trace_of {A} (r : list event * State * result A) : list event :=
  fst (fst r).
Definition state_of {A} (r : list event * State * result A) : State :=
  snd (fst r).
Definition value_of {A} (r : list event * State * result A) : result A :=
  snd r.

(** ** Telegram command handlers *)

(** A handler is followed up to what it asks of the bot: sending a reply
    ([reply_text]) and making the client ([AsyncClient(RPC_URL)]) are taken
    to return. *)

(** [context.args[0]] *)
Definition arg0 (args : list string) : result string :=
  match args with
  | [] => Raise IndexError
  | a :: _ => Ok a
  end.

Definition start_cmd : M unit :=
  emitM (Reply "Solana trader bot running. Commands: /setbuy <pct>, /settp <pct>, /status, /manualbuy <usdc>, /manualsell" []).

Definition setbuy_cmd (h : Host) (args : list string) : M unit :=
  tryM
    (v <- liftIO (liftR (a <- arg0 args ;; float_of_str h a)%res) ;;
     modifyM (set_buy_drop_pct v) ;;
     emitM (Reply "Buy drop set to {v}%" [JFloat v]))%M
    (fun _ => emitM (Reply "Usage: /setbuy 5.0  (for 5%)" [])).

Definition settp_cmd (h : Host) (args : list string) : M unit :=
  tryM
    (v <- liftIO (liftR (a <- arg0 args ;; float_of_str h a)%res) ;;
     modifyM (set_take_profit_pct v) ;;
     emitM (Reply "TP set to {v}%" [JFloat v]))%M
    (fun _ => emitM (Reply "Usage: /settp 2.0  (for 2%)" [])).

Definition status_cmd : M unit :=
  (s <- getM ;;
   emitM (Reply "State:\n{s}" [state_json s]))%M.

Definition manualbuy_cmd (cfg : Config) (h : Host) (n : Net)
    (args : list string) : M unit :=
  match args with
  | [] => emitM (Reply "Usage: /manualbuy <usdc_amount>" [])
  | a :: _ =>
      (usdc_amount <- liftIO (liftR (float_of_str h a)) ;;
       emitM (Reply "Scheduled manual buy of {usdc_amount} USDC (dry_run={DRY_RUN}). Running it now..."
                    [JFloat usdc_amount; JBool (DRY_RUN cfg)]) ;;
       keypair <- liftIO (liftR (load_keypair cfg h)) ;;
       tryM
         (res <- liftIO (buy_with_usdc cfg h n keypair usdc_amount) ;;
          emitM (Reply "Buy result: {res}" [res]))
         (fun e => emitM (Reply "Buy failed: {e}" [])))%M
  end.

Definition manualsell_cmd : M unit :=
  emitM (Reply "Manual sell requested. (Implement symmetric to buy_with_usdc)" []).

(** ** The monitoring loop *)

Definition SELL_MSG : string := "Take profit reached -> SELL.".

(** [pct24 <= -abs(STATE["buy_drop_pct"])] *)
Definition drop_reached (s : State) (pct24 : float) : bool :=
  PrimFloat.leb pct24 (PrimFloat.opp (PrimFloat.abs (buy_drop_pct s))).

(** [last_buy_price * (1.0 + take_profit_pct / 100.0)] *)
Definition target_price (last_buy take_profit : float) : float :=
  PrimFloat.mul last_buy
    (PrimFloat.add 1%float (PrimFloat.div take_profit 100%float)).

(** The first [if] of the loop body: buy when flat and the drop is reached.
    The writes come after the awaited call, inside the inner [try]. *)
Definition buy_step (cfg : Config) (h : Host) (n : Net) (keypair : Keypair)
    (price pct24 : float) : M unit :=
  (s <- getM ;;
   whenM (negb (holding s) && drop_reached s pct24)
     (emitM (LogInfo "Condition met to BUY." []) ;;
      tryM
        (res <- liftIO (buy_with_usdc cfg h n keypair 5%float) ;;
         emitM (LogInfo "Buy response: %s" [res]) ;;
         modifyM (set_holding true) ;;
         modifyM (set_last_buy_price (Some price)) ;;
         modifyM (set_position_amount_sol 0%float))
        (fun e => emitM (LogException "Buy failed: %s" e))))%M.

(** The second [if]: take profit. [STATE["last_buy_price"]] is tested for
    truth, so [None] and [0.0] both skip the check. *)
Definition sell_step (price : float) : M unit :=
  (s <- getM ;;
   match last_buy_price s with
   | Some last_buy =>
       whenM (holding s && float_truthy last_buy)
         (let target := target_price last_buy (take_profit_pct s) in
          whenM (PrimFloat.leb target price)
            (emitM (LogInfo SELL_MSG []) ;;
             modifyM (set_holding false) ;;
             modifyM (set_last_buy_price None) ;;
             modifyM (set_position_amount_sol 0%float)))
   | None => retM tt
   end)%M.

(** One pass of [while True] in [monitor_task]. *)
Definition monitor_iteration (cfg : Config) (h : Host) (n : Net)
    (keypair : Keypair) : M unit :=
  (tryM
     (pp <- liftIO (liftR (fetch_sol_24h_change_and_price n)) ;;
      let '(price, pct24) := pp in
      emitM (LogInfo "SOL price ${price:.4f}, 24h change {pct24:.2f}%"
                     [JFloat price; JFloat pct24]) ;;
      buy_step cfg h n keypair price pct24 ;;
      sell_step price)
     (fun e => emitM (LogException "Monitor loop error: %s" e)) ;;
   emitM (Sleep 60))%M.

(** [STATE] after the three writes of a buy, and of a sell. *)
Definition bought (price : float) (s : State) : State :=
  set_position_amount_sol 0%float
    (set_last_buy_price (Some price) (set_holding true s)).

Definition sold (s : State) : State :=
  set_position_amount_sol 0%float
    (set_last_buy_price None (set_holding false s)).

(** The take-profit test as the loop evaluates it. *)
Definition take_profit_reached (s : State) (price : float) : bool :=
  match last_buy_price s with
  | Some last_buy =>
      holding s && float_truthy last_buy
      && PrimFloat.leb (target_price last_buy (take_profit_pct s)) price
  | None => false
  end.

(** ** Observations on a trace *)

(** The amounts [buy_with_usdc] was called with. *)
Fixpoint buy_amounts (t : list event) : list float :=
  match t with
  | [] => []
  | LogInfo fmt [JFloat a] :: rest =>
      if String.eqb fmt BUY_REQUESTED then a :: buy_amounts rest
      else buy_amounts rest
  | _ :: rest => buy_amounts rest
  end.

Definition is_sell (ev : event) : bool :=
  match ev with
  | LogInfo fmt _ => String.eqb fmt SELL_MSG
  | _ => false
  end.

(** The loop decided to sell. *)
Definition sell_issued (t : list event) : bool := existsb is_sell t.

Definition is_exception (ev : event) : bool :=
  match ev with
  | LogException _ _ => true
  | _ => false
  end.

(** Some [except] clause ran. *)
Definition raised (t : list event) : bool := existsb is_exception t.

(** The pass entered the execution path: [buy_with_usdc] is the only one the
    program has. *)
Definition execution_invoked (t : list event) : bool :=
  match buy_amounts t with
  | [] => false
  | _ :: _ => true
  end.

(** ** Operations and reachable states *)

Inductive command : Type :=
| StartCmd
| SetBuy (args : list string)
| SetTp (args : list string)
| Status
| ManualBuy (n : Net) (args : list string)
| ManualSell.

Definition run_command (cfg : Config) (h : Host) (c : command) : M unit :=
  match c with
  | StartCmd => start_cmd
  | SetBuy args => setbuy_cmd h args
  | SetTp args => settp_cmd h args
  | Status => status_cmd
  | ManualBuy n args => manualbuy_cmd cfg h n args
  | ManualSell => manualsell_cmd
  end.

(** The states of a run: [monitor_task] loads the keypair once, then loops,
    and the handlers run in between.

    [setbuy_cmd] and [settp_cmd] may also run while the loop awaits the swap.
    They write only the two thresholds; the loop reads [buy_drop_pct] before
    the await and [take_profit_pct] after it, so each interleaving has the
    effect of a sequence of whole operations. *)
Inductive reachable (cfg : Config) (h : Host) : State -> Prop :=
| reach_init : reachable cfg h STATE
| reach_tick s n keypair :
    reachable cfg h s ->
    load_keypair cfg h = Ok keypair ->
    reachable cfg h (state_of (monitor_iteration cfg h n keypair s))
| reach_command s c :
    reachable cfg h s ->
    reachable cfg h (state_of (run_command cfg h c s)).

(** ** Startup *)

(** What [main] has set up when it reaches [run_polling]: the commands it
    registered, and how [monitor_task] began. The task is made with
    [asyncio.create_task]: an exception of its [load_keypair] ends the task
    and stays in it; [main] goes on to poll. *)
Record Startup : Type := mkStartup {
  commands : list string;
  monitor_start : result Keypair
}.

(** The first line of [monitor_task]; the loop follows when it returns. *)
Definition monitor_task_start (cfg : Config) (h : Host) : result Keypair :=
  load_keypair cfg h.

Definition main (cfg : Config) (h : Host) : result Startup :=
  if negb (env_truthy (TELEGRAM_TOKEN cfg))
  then Raise (RuntimeError "Set TELEGRAM_TOKEN env var")
  else Ok {| commands := ["start"; "setbuy"; "settp"; "status"; "manualbuy";
                          "manualsell"];
             monitor_start := monitor_task_start cfg h |}.

(** [entry_price] is set exactly when the position is open. *)
Definition position_inv (s : State) : Prop :=
  last_buy_price s <> None <-> holding s = true.

(** ** Sample worlds *)

Definition sample_keypair : Keypair :=
  {| secret := repeat 7 64; pubkey := "4Nd1mYw3r4PJgJHnEsW9fLkZ8pTq2xVbC6uA7sRtDyQe" |}.

(** [int(Decimal(x) * 10 ** 6)] where the product is exact. *)
Definition sample_units (x : float) : result Z :=
  match Prim2SF x with
  | S754_zero _ => Ok 0
  | S754_infinity _ => Raise (Other "OverflowError")
  | S754_nan => Raise ValueError
  | S754_finite sign m e =>
      let v := if 0 <=? e then Zpos m * 1000000 * 2 ^ e
               else (Zpos m * 1000000) / 2 ^ (- e) in
      Ok (if sign then - v else v)
  end.

(** [float(s)] on the arguments used below. *)
Definition sample_float (s : string) : result float :=
  if String.eqb s "5" then Ok 5%float
  else if String.eqb s "-5" then Ok (-5)%float
  else if String.eqb s "7.5" then Ok 7.5%float
  else Raise ValueError.

Definition sample_host : Host :=
  {| import_base58 := Ok tt;
     b58decode := fun _ => Ok (repeat 7 64);
     Keypair_from_bytes := fun raw => Ok (mkKeypair raw (pubkey sample_keypair));
     path_exists := fun _ => true;
     json_load := fun _ => Ok (JList (repeat (JInt 9) 64));
     float_of_str := sample_float;
     usdc_units := sample_units;
     base64_b64decode := fun _ => Ok [1; 0; 1; 3];
     import_VersionedTransaction := Ok tt;
     import_SKeypair := Ok tt;
     import_TxOpts := Ok tt;
     VersionedTransaction_from_bytes := fun b => Ok b |}.

Definition sample_quote : json :=
  JDict [("data", JList [JDict [("outAmount", JStr "33214377")]])].

(** A market that fell 6% to 150 dollars, and a Jupiter that answers. *)
Definition sample_net : Net :=
  {| fetch_sol_24h_change_and_price := Ok (150%float, (-6)%float);
     jupiter_quote := fun _ => Ok sample_quote;
     jupiter_swap := fun _ _ => Ok (JDict [("swapTransaction", JStr "AQABAw==")]);
     sdk_swap_from_quote :=
       fun _ => Ok (JDict [("txid", JStr "5VERv8"); ("outAmount", JInt 33214377)]) |}.

Definition net_at (price pct24 : float) : Net :=
  {| fetch_sol_24h_change_and_price := Ok (price, pct24);
     jupiter_quote := jupiter_quote sample_net;
     jupiter_swap := jupiter_swap sample_net;
     sdk_swap_from_quote := sdk_swap_from_quote sample_net |}.

(** The price feed times out. *)
Definition failing_feed : Net :=
  {| fetch_sol_24h_change_and_price := Raise (Other "ReadTimeout");
     jupiter_quote := jupiter_quote sample_net;
     jupiter_swap := jupiter_swap sample_net;
     sdk_swap_from_quote := sdk_swap_from_quote sample_net |}.

Definition dry_config : Config :=
  {| TELEGRAM_TOKEN := Some "token";
     PRIVATE_KEY_JSON := None;
     PRIVATE_KEY_B58 := Some "3mJr7AoUXx2Wqd";
     DRY_RUN := true;
     HAVE_JUPITER_SDK := false |}.

Definition live_config (sdk : bool) : Config :=
  {| TELEGRAM_TOKEN := Some "token";
     PRIVATE_KEY_JSON := None;
     PRIVATE_KEY_B58 := Some "3mJr7AoUXx2Wqd";
     DRY_RUN := false;
     HAVE_JUPITER_SDK := sdk |}.

(** The keypair of the first test of RFC 8032: the 32 bytes of the secret
    followed by the 32 bytes of its public key. *)
Definition TEST_KEYPAIR : list Z :=
  [157; 97; 177; 157; 239; 253; 90; 96; 186; 132; 74; 244; 146; 236; 44;
   196; 68; 73; 197; 105; 123; 50; 105; 25; 112; 59; 172; 3; 28; 174; 127;
   96; 215; 90; 152; 1; 130; 177; 10; 183; 213; 75; 254; 211; 201; 100; 7;
   58; 14; 225; 114; 243; 218; 166; 35; 37; 175; 2; 26; 104; 247; 7; 81; 26].

(** Its base58 form, and the base58 form of the public key. *)
Definition TEST_KEYPAIR_B58 : string :=
  "49W385L4rePHy6PAaQUovbD2aacgN4HsKXSMeUzRg4fmwXszN91JuMFrQRj3vMDpZuRF3ZknQBuRBoWQJEfXstMw".
Definition TEST_PUBKEY : string := "FVen3X669xLzsi6N2V91DoiyzHzg1uAgqiT8jZ9nS96Z".

Definition B58_ALPHABET : string :=
  "123456789ABCDEFGHJKLMNPQRSTUVWXYZabcdefghijkmnopqrstuvwxyz".

Fixpoint b58_index (c : ascii) (alphabet : string) (i : Z) : option Z :=
  match alphabet with
  | EmptyString => None
  | String a rest => if Ascii.eqb a c then Some i else b58_index c rest (i + 1)
  end.

Fixpoint b58_int (s : string) (acc : Z) : result Z :=
  match s with
  | EmptyString => Ok acc
  | String c rest =>
      match b58_index c B58_ALPHABET 0 with
      | Some d => b58_int rest (acc * 58 + d)
      | None => Raise ValueError
      end
  end.

Fixpoint b58_leading_ones (s : string) : nat :=
  match s with
  | String "1"%char rest => S (b58_leading_ones rest)
  | _ => O
  end.

Fixpoint bytes_be (fuel : nat) (z : Z) (acc : list Z) : list Z :=
  match fuel with
  | O => acc
  | S f => if z =? 0 then acc else bytes_be f (z / 256) (z mod 256 :: acc)
  end.

(** [base58.b58decode] on a string without white space at its end: each
    leading "1" is a zero byte, the rest is a number in base 58. *)
Definition sample_b58decode (s : string) : result (list Z) :=
  (acc <- b58_int s 0 ;;
   Ok (repeat 0 (b58_leading_ones s)
         ++ bytes_be (S (Z.to_nat (Z.log2 acc))) acc [])%list)%res.

Fixpoint bytes_eqb (a b : list Z) : bool :=
  match a, b with
  | [], [] => true
  | x :: a', y :: b' => (x =? y) && bytes_eqb a' b'
  | _, _ => false
  end.

(** A host that holds the test keypair, as a file and as an encoded secret.
    [Keypair.from_bytes] accepts that keypair; other bytes are refused. *)
Definition keyed_host : Host :=
  {| import_base58 := Ok tt;
     b58decode := sample_b58decode;
     Keypair_from_bytes :=
       fun raw => if bytes_eqb raw TEST_KEYPAIR
                  then Ok (mkKeypair raw TEST_PUBKEY)
                  else Raise ValueError;
     path_exists := fun p => String.eqb p "id.json";
     json_load := fun p => if String.eqb p "id.json"
                           then Ok (JList (map JInt TEST_KEYPAIR))
                           else Raise (Other "FileNotFoundError");
     float_of_str := sample_float;
     usdc_units := sample_units;
     base64_b64decode := base64_b64decode sample_host;
     import_VersionedTransaction := Ok tt;
     import_SKeypair := Ok tt;
     import_TxOpts := Ok tt;
     VersionedTransaction_from_bytes :=
       VersionedTransaction_from_bytes sample_host |}.

(** Both credential sources configured, each with the test keypair. *)
Definition both_keys_config : Config :=
  {| TELEGRAM_TOKEN := Some "token";
     PRIVATE_KEY_JSON := Some "id.json";
     PRIVATE_KEY_B58 := Some TEST_KEYPAIR_B58;
     DRY_RUN := true;
     HAVE_JUPITER_SDK := false |}.

(** No credential source configured. *)
Definition no_keys_config : Config :=
  {| TELEGRAM_TOKEN := Some "token";
     PRIVATE_KEY_JSON := None;
     PRIVATE_KEY_B58 := None;
     DRY_RUN := true;
     HAVE_JUPITER_SDK := false |}.

Definition holding_at (entry tp : float) : State :=
  {| buy_drop_pct := 5%float;
     take_profit_pct := tp;
     holding := true;
     last_buy_price := Some entry;
     position_amount_sol := 0%float |}.

(** ** The dry-run switch *)

(** [str.lower] on the bytes of an ASCII string. No other character lowers
    to one of the letters of ["true"]. *)
Definition ascii_lower (c : ascii) : ascii :=
  let n := nat_of_ascii c in
  if (Nat.leb 65 n && Nat.leb n 90)%bool then ascii_of_nat (n + 32) else c.

Fixpoint str_lower (s : string) : string :=
  match s with
  | EmptyString => EmptyString
  | String c rest => String (ascii_lower c) (str_lower rest)
  end.

(** [os.getenv("DRY_RUN", "true").lower() == "true"] *)
Definition DRY_RUN_of_env (v : option string) : bool :=
  String.eqb (str_lower (match v with Some s => s | None => "true" end)) "true".

(** ** The amount in native units *)

(** The number of decimal digits of [c >= 1]. *)
Fixpoint ndigits_fuel (fuel : nat) (c : Z) : Z :=
  match fuel with
  | O => 0
  | S f => if c <? 10 then 1 else 1 + ndigits_fuel f (c / 10)
  end.

Definition ndigits (c : Z) : Z := ndigits_fuel (S (Z.to_nat (Z.log2 c))) c.

(** [c / 10 ^ r] rounded to the nearest integer, ties to even
    ([ROUND_HALF_EVEN]). *)
Definition round_half_even (c r : Z) : Z :=
  let q := c / 10 ^ r in
  let rest := c mod 10 ^ r in
  if 2 * rest <? 10 ^ r then q
  else if 10 ^ r <? 2 * rest then q + 1
  else if Z.even q then q else q + 1.

(** The default context keeps 28 significant digits of [c * 10 ^ x]. *)
Definition decimal_fix (c x : Z) : Z * Z :=
  let d := ndigits c in
  if d <=? 28 then (c, x) else (round_half_even c (d - 28), x + (d - 28)).

(** [int(...)] of the decimal [c * 10 ^ x], [c >= 0]: the integer part. *)
Definition decimal_trunc (c x : Z) : Z :=
  if 0 <=? x then c * 10 ^ x else c / 10 ^ (- x).

(** [int(Decimal(usdc_amount) * (10 ** 6))]. [Decimal(float)] is exact: a
    float [m * 2 ^ e] with [e < 0] is the decimal [(m * 5 ^ -e) * 10 ^ e].
    The product is rounded by the context, [int] drops the fraction and
    refuses NaN and the infinities. *)
Definition amount_int (usdc_amount : float) : result Z :=
  match Prim2SF usdc_amount with
  | S754_nan => Raise ValueError
  | S754_infinity _ => Raise (Other "OverflowError")
  | S754_zero _ => Ok 0
  | S754_finite sign m e =>
      let c0 := if 0 <=? e then Zpos m * 2 ^ e else Zpos m * 5 ^ (- e) in
      let x0 := if 0 <=? e then 0 else e in
      let '(c, x) := decimal_fix (c0 * 1000000) x0 in
      let v := decimal_trunc c x in
      Ok (if sign then - v else v)
  end.

(** ** The price feed *)

Module CoinGecko.

(** [float(Decimal(str(z)))]: the nearest binary64 value, ties to even, an
    infinity when [z] is too large. *)
Definition float_of_Z (z : Z) : float :=
  SF2Prim (binary_normalize prec emax z 0 false).

(** [data[0]] *)
Definition first_item (data : json) : result json :=
  match data with
  | JList (x :: _) => Ok x
  | JList [] => Raise IndexError
  | JStr (String c _) => Ok (JStr (String c EmptyString))
  | JStr EmptyString => Raise IndexError
  | JDict _ => Raise (Other "KeyError")
  | _ => Raise TypeError
  end.

Section Fetch.

(** [Decimal(s)] for a string field, then [float(...)] of it: the outer
    result is the constructor's, the inner one the conversion's. *)
Variable Decimal_of_str : string -> result (result float).

(** [Decimal(str(v))], kept as what [float(...)] will make of it. [str] of a
    float is its shortest round-tripping form, so a float comes back as it
    is; [str] of [None], a bool, a list or a dict is no number. *)
Definition Decimal_of_json (v : json) : result (result float) :=
  match v with
  | JFloat f => Ok (Ok f)
  | JInt z => Ok (Ok (float_of_Z z))
  | JStr s => Decimal_of_str s
  | _ => Raise (Other "InvalidOperation")
  end.

(** [response] is what [requests.get], [raise_for_status] and [r.json()]
    give. *)
Definition fetch_sol_24h_change_and_price (response : result json)
    : result (float * float) :=
  (data <- response ;;
   if negb (truthy data) then Raise (RuntimeError "CoinGecko returned empty")
   else
     d <- CoinGecko.first_item data ;;
     current_price <- py_get d "current_price" ;;
     price <- Decimal_of_json current_price ;;
     change <- py_get d "price_change_percentage_24h" ;;
     pct24 <- Decimal_of_json (if truthy change then change else JFloat 0%float) ;;
     p <- price ;;
     c <- pct24 ;;
     Ok (p, c))%res.

End Fetch.

End CoinGecko.

(** The network [n] with the price feed answering [response]. *)
Definition with_feed (Decimal_of_str : string -> result (result float))
    (response : result json) (n : Net) : Net :=
  {| fetch_sol_24h_change_and_price :=
       CoinGecko.fetch_sol_24h_change_and_price Decimal_of_str response;
     jupiter_quote := jupiter_quote n;
     jupiter_swap := jupiter_swap n;
     sdk_swap_from_quote := sdk_swap_from_quote n |}.

(** ** More observations *)

(** A byte value. *)
Definition is_byte (z : Z) : Prop := 0 <= z < 256.

(** The amounts of the quote requests of a trace. *)
Fixpoint quote_requests (t : list event) : list Z :=
  match t with
  | [] => []
  | QuoteRequest a :: rest => a :: quote_requests rest
  | _ :: rest => quote_requests rest
  end.

(** The event hands over the keypair, secret included. *)
Definition carries_keypair (ev : event) : bool :=
  match ev with
  | SdkSwap _ _ => true
  | _ => false
  end.

(** The public keys sent to the swap endpoint. *)
Fixpoint swap_pubkeys (t : list event) : list string :=
  match t with
  | [] => []
  | SwapBuildRequest _ k :: rest => k :: swap_pubkeys rest
  | _ :: rest => swap_pubkeys rest
  end.

Definition is_reply (ev : event) : bool :=
  match ev with
  | Reply _ _ => true
  | _ => false
  end.

(** Consecutive passes of the loop, one network answer per pass. *)
Fixpoint run_passes (cfg : Config) (h : Host) (keypair : Keypair)
    (ns : list Net) (s : State) : State :=
  match ns with
  | [] => s
  | n :: rest =>
      run_passes cfg h keypair rest
        (state_of (monitor_iteration cfg h n keypair s))
  end.

(** A [/setbuy] or [/settp] argument that [float] accepts. *)
Definition parses (h : Host) (args : list string) (v : float) : Prop :=
  exists a rest, args = a :: rest /\ float_of_str h a = Ok v.

(** A CoinGecko record. *)
Definition sample_record (price change : json) : json :=
  JList [JDict [("id", JStr "solana"); ("current_price", price);
                ("price_change_percentage_24h", change)]].

(** Only the keypair file is configured, and it holds three bytes. *)
Definition file_config : Config :=
  {| TELEGRAM_TOKEN := Some "token";
     PRIVATE_KEY_JSON := Some "id.json";
     PRIVATE_KEY_B58 := None;
     DRY_RUN := true;
     HAVE_JUPITER_SDK := false |}.

Definition file_host : Host :=
  {| import_base58 := import_base58 sample_host;
     b58decode := b58decode sample_host;
     Keypair_from_bytes := Keypair_from_bytes sample_host;
     path_exists := path_exists sample_host;
     json_load := fun _ => Ok (JList (map JInt [3; 1; 4]));
     float_of_str := float_of_str sample_host;
     usdc_units := usdc_units sample_host;
     base64_b64decode := base64_b64decode sample_host;
     import_VersionedTransaction := Ok tt;
     import_SKeypair := Ok tt;
     import_TxOpts := Ok tt;
     VersionedTransaction_from_bytes :=
       VersionedTransaction_from_bytes sample_host |}.

(** No string field parses. *)
Definition no_strings (s : string) : result (result float) :=
  Raise (Other "InvalidOperation").

(** * Properties *)

(** Case analysis on the innermost scrutinee of the goal. *)
Ltac break_match :=
  match goal with
  | |- context [match ?x with _ => _ end] =>
      lazymatch x with
      | context [match _ with _ => _ end] => fail
      | _ => destruct x eqn:?
      end
  end.

(** ** Comparisons of binary64 values *)

Section FloatFacts.

Lemma SFcompare_antisym (x y : spec_float) :
  SFcompare y x = option_map CompOpp (SFcompare x y).
Proof.
  destruct x as [sx|sx| |sx mx ex], y as [sy|sy| |sy my ey]; simpl;
    try reflexivity;
    try (destruct sx; reflexivity);
    try (destruct sy; reflexivity);
    try (destruct sx, sy; reflexivity).
  pose proof (Pos.compare_cont_antisym mx my Eq) as A. simpl in A.
  destruct sx, sy; simpl; try reflexivity;
    rewrite (Z.compare_antisym ex ey);
    destruct (ex ?= ey)%Z; simpl; try reflexivity;
    rewrite <- A; reflexivity.
Qed.

Lemma abs_opp (v : float) : PrimFloat.abs (PrimFloat.opp v) = PrimFloat.abs v.
Proof.
  apply Prim2SF_inj. rewrite !abs_spec, opp_spec.
  destruct (Prim2SF v); reflexivity.
Qed.

Lemma abs_of_positive (b : float) :
  PrimFloat.ltb 0%float b = true -> PrimFloat.abs b = b.
Proof.
  rewrite ltb_spec. intros H.
  apply Prim2SF_inj. rewrite abs_spec.
  unfold SFltb in H. change (Prim2SF 0%float) with (S754_zero false) in H.
  destruct (Prim2SF b) as [s|s| |s m e]; simpl in H; try discriminate;
    destruct s; simpl in H; try discriminate; reflexivity.
Qed.

Lemma ltb_not_leb (x y : float) :
  PrimFloat.ltb x y = true -> PrimFloat.leb y x = false.
Proof.
  rewrite ltb_spec, leb_spec. unfold SFltb, SFleb.
  rewrite (SFcompare_antisym (Prim2SF x) (Prim2SF y)).
  destruct (SFcompare (Prim2SF x) (Prim2SF y)) as [[ | | ]|]; simpl;
    intros H; try discriminate; reflexivity.
Qed.


Lemma float_neq_5_10 : 5%float <> 10%float.
Proof.
  intros E. apply (f_equal (fun x => PrimFloat.ltb x 7%float)) in E.
  vm_compute in E. discriminate.
Qed.

Lemma SFcompare_nan_r x : SFcompare x S754_nan = None.
Proof. destruct x; reflexivity. Qed.

Lemma SFcompare_refl x : x <> S754_nan -> SFcompare x x = Some Eq.
Proof.
  destruct x as [s|s| |s m e]; intros N; try reflexivity.
  - destruct s; reflexivity.
  - now contradiction N.
  - cbn. rewrite Z.compare_refl, Pos.compare_cont_refl.
    destruct s; reflexivity.
Qed.

Lemma leb_opp_positive_refl (b : float) :
  PrimFloat.ltb 0%float b = true ->
  PrimFloat.leb (PrimFloat.opp b) (PrimFloat.opp b) = true.
Proof.
  rewrite ltb_spec, leb_spec, opp_spec. unfold SFltb, SFleb.
  change (Prim2SF 0%float) with (S754_zero false).
  destruct (Prim2SF b) as [sg|sg| |sg m e] eqn:P; cbn [SFcompare];
    try discriminate; intros _;
    rewrite SFcompare_refl by (destruct sg; discriminate); reflexivity.
Qed.

End FloatFacts.

(** ** The execution path *)

Lemma buy_with_usdc_dry_run cfg h n keypair usdc_amount :
  DRY_RUN cfg = true ->
  buy_with_usdc cfg h n keypair usdc_amount =
    ([LogInfo BUY_REQUESTED [JFloat usdc_amount]; LogInfo DRY_RUN_MSG []],
     Ok (simulated usdc_amount)).
Proof. intros D. unfold buy_with_usdc. rewrite D. reflexivity. Qed.

(** Whatever the path, the call logs its amount first and exactly once. *)
Lemma buy_with_usdc_amount cfg h n keypair usdc_amount :
  buy_amounts (fst (buy_with_usdc cfg h n keypair usdc_amount)) = [usdc_amount].
Proof.
  unfold buy_with_usdc, get_jupiter_quote, request_jupiter_swap.
  cbn. repeat (break_match; cbn in *); try reflexivity.
Qed.

Lemma buy_amounts_app t1 t2 :
  buy_amounts (t1 ++ t2) = (buy_amounts t1 ++ buy_amounts t2)%list.
Proof.
  induction t1 as [|ev t1 IH]; [reflexivity|].
  destruct ev as [fmt args| | | | | | |]; cbn; try exact IH.
  destruct args as [|[ | | |a| | | ] [|? ?]]; try exact IH.
  destruct (String.eqb fmt BUY_REQUESTED); cbn; now rewrite IH.
Qed.

(** A call that returns has not gone through an [except] clause. *)
Lemma buy_with_usdc_ok_not_raised cfg h n keypair usdc_amount t res :
  buy_with_usdc cfg h n keypair usdc_amount = (t, Ok res) ->
  raised t = false.
Proof.
  unfold buy_with_usdc, get_jupiter_quote, request_jupiter_swap.
  cbn. repeat (break_match; cbn in *);
    intros E; inversion E; subst; try reflexivity; try discriminate.
Qed.

Lemma buy_with_usdc_manual_raises cfg h n keypair usdc_amount :
  DRY_RUN cfg = false ->
  HAVE_JUPITER_SDK cfg = false ->
  is_raise (snd (buy_with_usdc cfg h n keypair usdc_amount)) = true.
Proof.
  intros D S.
  unfold buy_with_usdc, get_jupiter_quote, request_jupiter_swap.
  rewrite D, S. cbn.
  repeat (break_match; cbn in *); try reflexivity; congruence.
Qed.

Lemma buy_with_usdc_sdk cfg h n keypair usdc_amount amount_int quote data :
  DRY_RUN cfg = false ->
  HAVE_JUPITER_SDK cfg = true ->
  usdc_units h usdc_amount = Ok amount_int ->
  jupiter_quote n amount_int = Ok quote ->
  py_get quote "data" = Ok data ->
  truthy data = true ->
  snd (buy_with_usdc cfg h n keypair usdc_amount) = sdk_swap_from_quote n quote.
Proof.
  intros D S U Q G T.
  unfold buy_with_usdc, get_jupiter_quote.
  rewrite D, S, U. cbn. rewrite Q. cbn. rewrite G. cbn. rewrite T. cbn.
  destruct (sdk_swap_from_quote n quote); reflexivity.
Qed.

(** ** One pass of the loop *)

Section Iteration.

Variables (cfg : Config) (h : Host) (n : Net) (keypair : Keypair).

Lemma buy_step_skip price pct24 s :
  negb (holding s) && drop_reached s pct24 = false ->
  buy_step cfg h n keypair price pct24 s = ([], s, Ok tt).
Proof.
  intros C. unfold buy_step, bindM, getM, whenM. rewrite C. reflexivity.
Qed.

Lemma buy_step_ok price pct24 s tb res :
  negb (holding s) && drop_reached s pct24 = true ->
  buy_with_usdc cfg h n keypair 5%float = (tb, Ok res) ->
  buy_step cfg h n keypair price pct24 s =
    ((LogInfo "Condition met to BUY." [] :: tb
        ++ [LogInfo "Buy response: %s" [res]])%list,
     bought price s, Ok tt).
Proof.
  intros C B. unfold buy_step, bindM, getM, whenM, tryM, liftIO, emitM, modifyM.
  rewrite C, B. cbn. reflexivity.
Qed.

Lemma buy_step_fail price pct24 s tb e :
  negb (holding s) && drop_reached s pct24 = true ->
  buy_with_usdc cfg h n keypair 5%float = (tb, Raise e) ->
  buy_step cfg h n keypair price pct24 s =
    ((LogInfo "Condition met to BUY." [] :: tb
        ++ [LogException "Buy failed: %s" e])%list,
     s, Ok tt).
Proof.
  intros C B. unfold buy_step, bindM, getM, whenM, tryM, liftIO, emitM, modifyM.
  rewrite C, B. cbn. reflexivity.
Qed.

Lemma sell_step_eq price s :
  sell_step price s =
    if take_profit_reached s price
    then ([LogInfo SELL_MSG []], sold s, Ok tt)
    else ([], s, Ok tt).
Proof.
  unfold sell_step, take_profit_reached, bindM, getM, whenM, emitM, modifyM,
    liftIO, retM.
  destruct (last_buy_price s) as [last_buy|]; [|reflexivity].
  destruct (holding s); cbn; [|reflexivity].
  destruct (float_truthy last_buy); cbn; [|reflexivity].
  destruct (PrimFloat.leb _ price); reflexivity.
Qed.

Lemma buy_step_value price pct24 s :
  value_of (buy_step cfg h n keypair price pct24 s) = Ok tt.
Proof.
  destruct (negb (holding s) && drop_reached s pct24) eqn:C.
  - destruct (buy_with_usdc cfg h n keypair 5%float) as [tb [res|e]] eqn:B.
    + now rewrite (buy_step_ok price pct24 s tb res C B).
    + now rewrite (buy_step_fail price pct24 s tb e C B).
  - now rewrite buy_step_skip.
Qed.

Lemma monitor_iteration_fetch_raises e s :
  fetch_sol_24h_change_and_price n = Raise e ->
  monitor_iteration cfg h n keypair s =
    ([LogException "Monitor loop error: %s" e; Sleep 60], s, Ok tt).
Proof.
  intros F. unfold monitor_iteration, bindM, tryM, liftIO, liftR, emitM.
  rewrite F. reflexivity.
Qed.

Lemma monitor_iteration_fetch_ok price pct24 s :
  fetch_sol_24h_change_and_price n = Ok (price, pct24) ->
  monitor_iteration cfg h n keypair s =
    let b := buy_step cfg h n keypair price pct24 s in
    let t := sell_step price (state_of b) in
    ((LogInfo "SOL price ${price:.4f}, 24h change {pct24:.2f}%"
              [JFloat price; JFloat pct24]
        :: trace_of b ++ trace_of t ++ [Sleep 60])%list,
     state_of t, Ok tt).
Proof.
  intros F.
  pose proof (buy_step_value price pct24 s) as V.
  unfold monitor_iteration, bindM, tryM, liftIO, liftR, emitM.
  rewrite F. cbn -[sell_step buy_step].
  destruct (buy_step cfg h n keypair price pct24 s) as [[tb sb] rb].
  cbn in V. subst rb. cbn -[sell_step].
  rewrite sell_step_eq.
  destruct (take_profit_reached sb price); cbn;
    rewrite ?app_nil_r, <- ?app_assoc; reflexivity.
Qed.

(** Holding: the first [if] is skipped. *)
Lemma iteration_while_holding price pct24 s :
  fetch_sol_24h_change_and_price n = Ok (price, pct24) ->
  holding s = true ->
  monitor_iteration cfg h n keypair s =
    if take_profit_reached s price
    then ([LogInfo "SOL price ${price:.4f}, 24h change {pct24:.2f}%"
                   [JFloat price; JFloat pct24];
           LogInfo SELL_MSG []; Sleep 60], sold s, Ok tt)
    else ([LogInfo "SOL price ${price:.4f}, 24h change {pct24:.2f}%"
                   [JFloat price; JFloat pct24];
           Sleep 60], s, Ok tt).
Proof.
  intros F H.
  rewrite (monitor_iteration_fetch_ok price pct24 s F).
  rewrite (buy_step_skip price pct24 s)
    by (rewrite H; reflexivity).
  cbn -[sell_step]. rewrite sell_step_eq.
  destruct (take_profit_reached s price); reflexivity.
Qed.

(** Flat and no drop: nothing happens. *)
Lemma iteration_flat_idle price pct24 s :
  fetch_sol_24h_change_and_price n = Ok (price, pct24) ->
  holding s = false ->
  drop_reached s pct24 = false ->
  monitor_iteration cfg h n keypair s =
    ([LogInfo "SOL price ${price:.4f}, 24h change {pct24:.2f}%"
              [JFloat price; JFloat pct24];
      Sleep 60], s, Ok tt).
Proof.
  intros F H C.
  rewrite (monitor_iteration_fetch_ok price pct24 s F).
  rewrite (buy_step_skip price pct24 s)
    by (rewrite H, C; reflexivity).
  cbn -[sell_step]. rewrite sell_step_eq.
  unfold take_profit_reached. rewrite H.
  destruct (last_buy_price s); reflexivity.
Qed.

(** Flat, drop reached, the buy raises: only log records. *)
Lemma iteration_buy_fails price pct24 s tb e :
  fetch_sol_24h_change_and_price n = Ok (price, pct24) ->
  holding s = false ->
  drop_reached s pct24 = true ->
  buy_with_usdc cfg h n keypair 5%float = (tb, Raise e) ->
  monitor_iteration cfg h n keypair s =
    ((LogInfo "SOL price ${price:.4f}, 24h change {pct24:.2f}%"
              [JFloat price; JFloat pct24]
        :: LogInfo "Condition met to BUY." []
        :: tb ++ [LogException "Buy failed: %s" e; Sleep 60])%list,
     s, Ok tt).
Proof.
  intros F H C B.
  rewrite (monitor_iteration_fetch_ok price pct24 s F).
  rewrite (buy_step_fail price pct24 s tb e)
    by (try rewrite H, C; auto).
  cbn -[sell_step]. rewrite sell_step_eq.
  unfold take_profit_reached. rewrite H.
  destruct (last_buy_price s); cbn; rewrite <- app_assoc; reflexivity.
Qed.

(** Flat, drop reached, the buy returns: the position opens at [price], and
    the take-profit test runs on it in the same pass. *)
Lemma iteration_buy_ok price pct24 s tb res :
  fetch_sol_24h_change_and_price n = Ok (price, pct24) ->
  holding s = false ->
  drop_reached s pct24 = true ->
  buy_with_usdc cfg h n keypair 5%float = (tb, Ok res) ->
  monitor_iteration cfg h n keypair s =
    let t := sell_step price (bought price s) in
    ((LogInfo "SOL price ${price:.4f}, 24h change {pct24:.2f}%"
              [JFloat price; JFloat pct24]
        :: LogInfo "Condition met to BUY." []
        :: tb ++ LogInfo "Buy response: %s" [res]
        :: trace_of t ++ [Sleep 60])%list,
     state_of t, Ok tt).
Proof.
  intros F H C B.
  rewrite (monitor_iteration_fetch_ok price pct24 s F).
  rewrite (buy_step_ok price pct24 s tb res)
    by (try rewrite H, C; auto).
  cbn -[sell_step]. rewrite <- app_assoc. reflexivity.
Qed.

End Iteration.

(** ** Dry run *)

Lemma monitor_iteration_dry_run_quiet cfg h n keypair s :
  DRY_RUN cfg = true ->
  existsb signer_event (trace_of (monitor_iteration cfg h n keypair s)) = false.
Proof.
  intros D.
  destruct (fetch_sol_24h_change_and_price n) as [[price pct24]|e] eqn:F.
  - rewrite (monitor_iteration_fetch_ok cfg h n keypair price pct24 s F).
    cbn -[buy_step sell_step]. rewrite !existsb_app.
    rewrite sell_step_eq.
    assert (B : existsb signer_event
                  (trace_of (buy_step cfg h n keypair price pct24 s)) = false).
    { destruct (negb (holding s) && drop_reached s pct24) eqn:C.
      - rewrite (buy_step_ok cfg h n keypair price pct24 s _ _ C
                   (buy_with_usdc_dry_run cfg h n keypair 5%float D)).
        reflexivity.
      - rewrite (buy_step_skip cfg h n keypair price pct24 s C). reflexivity. }
    rewrite B.
    destruct (take_profit_reached _ price); reflexivity.
  - rewrite (monitor_iteration_fetch_raises cfg h n keypair e s F). reflexivity.
Qed.

Lemma manualbuy_cmd_dry_run_quiet cfg h n args s :
  DRY_RUN cfg = true ->
  existsb signer_event (trace_of (manualbuy_cmd cfg h n args s)) = false.
Proof.
  intros D. destruct args as [|a rest]; [reflexivity|].
  unfold manualbuy_cmd, bindM, tryM, liftIO, liftR, emitM.
  destruct (float_of_str h a) as [usdc_amount|e]; [|reflexivity].
  cbn -[buy_with_usdc load_keypair].
  destruct (load_keypair cfg h) as [keypair|e]; [|reflexivity].
  cbn -[buy_with_usdc].
  rewrite (buy_with_usdc_dry_run cfg h n keypair usdc_amount D).
  reflexivity.
Qed.

(** C1. In dry-run mode [buy_with_usdc] returns the simulated result, the
    dict [{"simulated": True, "usdc": usdc_amount}], for every amount, after
    two log records and nothing else; neither it nor its two callers (the
    loop and [/manualbuy]) produce an event of the Transaction
    Builder/Signer. *)
Theorem dry_run_never_reaches_signer cfg h n keypair usdc_amount args s :
  DRY_RUN cfg = true ->
  snd (buy_with_usdc cfg h n keypair usdc_amount)
    = Ok (JDict [("simulated", JBool true); ("usdc", JFloat usdc_amount)])
  /\ fst (buy_with_usdc cfg h n keypair usdc_amount)
     = [LogInfo BUY_REQUESTED [JFloat usdc_amount]; LogInfo DRY_RUN_MSG []]
  /\ existsb signer_event (fst (buy_with_usdc cfg h n keypair usdc_amount)) = false
  /\ existsb signer_event (trace_of (monitor_iteration cfg h n keypair s)) = false
  /\ existsb signer_event (trace_of (manualbuy_cmd cfg h n args s)) = false.
Proof.
  intros D. rewrite (buy_with_usdc_dry_run cfg h n keypair usdc_amount D).
  repeat split.
  - now apply monitor_iteration_dry_run_quiet.
  - now apply manualbuy_cmd_dry_run_quiet.
Qed.

Lemma dry_run_never_reaches_signer_witness :
  snd (buy_with_usdc dry_config sample_host sample_net sample_keypair 5%float)
    = Ok (JDict [("simulated", JBool true); ("usdc", JFloat 5%float)])
  /\ fst (buy_with_usdc dry_config sample_host sample_net sample_keypair 5%float)
     = [LogInfo BUY_REQUESTED [JFloat 5%float]; LogInfo DRY_RUN_MSG []]
  /\ existsb signer_event
       (fst (buy_with_usdc dry_config sample_host sample_net sample_keypair 5%float))
     = false
  /\ existsb signer_event
       (trace_of (monitor_iteration dry_config sample_host sample_net
                    sample_keypair STATE)) = false
  /\ existsb signer_event
       (trace_of (manualbuy_cmd dry_config sample_host sample_net ["5"] STATE))
     = false.
Proof.
  apply (dry_run_never_reaches_signer dry_config sample_host sample_net
           sample_keypair 5%float ["5"] STATE).
  reflexivity.
Defined.

(** Outside dry-run mode the same call does reach the signer. *)
Example live_run_reaches_signer :
  existsb signer_event
    (fst (buy_with_usdc (live_config true) sample_host sample_net
            sample_keypair 5%float)) = true.
Proof. vm_compute. reflexivity. Qed.

(** ** Build and sign *)

(** C8, as stated, fails: with dry-run off and no SDK, a valid quote and a
    well-formed payload still end in an exception. *)
Lemma build_and_sign_raises_on_valid_quote :
  ~ (forall cfg h n keypair usdc_amount amount_int quote data,
        DRY_RUN cfg = false ->
        usdc_units h usdc_amount = Ok amount_int ->
        jupiter_quote n amount_int = Ok quote ->
        py_get quote "data" = Ok data ->
        truthy data = true ->
        is_raise (snd (buy_with_usdc cfg h n keypair usdc_amount)) = false).
Proof.
  intros H.
  specialize (H (live_config false) sample_host sample_net sample_keypair
                5%float 5000000 sample_quote
                (JList [JDict [("outAmount", JStr "33214377")]])).
  vm_compute in H.
  specialize (H eq_refl eq_refl eq_refl eq_refl eq_refl). discriminate.
Qed.

(** The manual path when every step before its last line succeeds. The
    payload is [swapTransaction], or when that is false
    [swapTransactionSerialized]. *)
Lemma manual_signing_raises cfg h n keypair usdc_amount amount_int quote data
    kv tx_b64 tx_bytes vtx :
  DRY_RUN cfg = false ->
  HAVE_JUPITER_SDK cfg = false ->
  usdc_units h usdc_amount = Ok amount_int ->
  jupiter_quote n amount_int = Ok quote ->
  py_get quote "data" = Ok data ->
  truthy data = true ->
  jupiter_swap n quote (pubkey keypair) = Ok (JDict kv) ->
  tx_b64 = (if truthy (dict_get kv "swapTransaction")
            then dict_get kv "swapTransaction"
            else dict_get kv "swapTransactionSerialized") ->
  truthy tx_b64 = true ->
  base64_b64decode h tx_b64 = Ok tx_bytes ->
  import_VersionedTransaction h = Ok tt ->
  import_SKeypair h = Ok tt ->
  import_TxOpts h = Ok tt ->
  VersionedTransaction_from_bytes h tx_bytes = Ok vtx ->
  buy_with_usdc cfg h n keypair usdc_amount
  = ([LogInfo BUY_REQUESTED [JFloat usdc_amount]; QuoteRequest amount_int;
      SwapBuildRequest quote (pubkey keypair); DeserializeTx tx_bytes],
     Raise (RuntimeError MANUAL_SIGNING_MSG)).
Proof.
  intros D S U Q G T W P Tp B I1 I2 I3 V.
  unfold buy_with_usdc, get_jupiter_quote, request_jupiter_swap.
  rewrite D, S, U. cbn -[py_get]. rewrite Q. cbn -[py_get]. rewrite G.
  cbn -[py_get]. rewrite T. cbn -[py_get]. rewrite W. cbn.
  destruct (truthy (dict_get kv "swapTransaction")) eqn:A; cbn;
    subst tx_b64; rewrite Tp; cbn; rewrite B; cbn;
    rewrite I1; cbn; rewrite I2; cbn; rewrite I3; cbn; rewrite V;
    reflexivity.
Qed.

(** C8, amended. With dry-run off and no SDK the build-and-sign path never
    returns, whatever the quote and the encoding of the payload: every
    execution raises, and the one in which the quote is valid, the payload
    arrives, decodes, the imports succeed and the transaction deserialises
    raises the RuntimeError "Manual signing of Jupiter versioned txns is
    advanced...". With the SDK a valid quote gives what the SDK's swap call
    gives. *)
Theorem build_and_sign_outcome cfg h n keypair usdc_amount :
  DRY_RUN cfg = false ->
  (HAVE_JUPITER_SDK cfg = false ->
   is_raise (snd (buy_with_usdc cfg h n keypair usdc_amount)) = true)
  /\ (forall amount_int quote data kv tx_b64 tx_bytes vtx,
        HAVE_JUPITER_SDK cfg = false ->
        usdc_units h usdc_amount = Ok amount_int ->
        jupiter_quote n amount_int = Ok quote ->
        py_get quote "data" = Ok data ->
        truthy data = true ->
        jupiter_swap n quote (pubkey keypair) = Ok (JDict kv) ->
        tx_b64 = (if truthy (dict_get kv "swapTransaction")
                  then dict_get kv "swapTransaction"
                  else dict_get kv "swapTransactionSerialized") ->
        truthy tx_b64 = true ->
        base64_b64decode h tx_b64 = Ok tx_bytes ->
        import_VersionedTransaction h = Ok tt ->
        import_SKeypair h = Ok tt ->
        import_TxOpts h = Ok tt ->
        VersionedTransaction_from_bytes h tx_bytes = Ok vtx ->
        buy_with_usdc cfg h n keypair usdc_amount
        = ([LogInfo BUY_REQUESTED [JFloat usdc_amount];
            QuoteRequest amount_int;
            SwapBuildRequest quote (pubkey keypair);
            DeserializeTx tx_bytes],
           Raise (RuntimeError
                    "Manual signing of Jupiter versioned txns is advanced. Use jupiter-python-sdk or follow Jupiter docs. See comments in code.")))
  /\ (forall amount_int quote data,
        HAVE_JUPITER_SDK cfg = true ->
        usdc_units h usdc_amount = Ok amount_int ->
        jupiter_quote n amount_int = Ok quote ->
        py_get quote "data" = Ok data ->
        truthy data = true ->
        snd (buy_with_usdc cfg h n keypair usdc_amount)
          = sdk_swap_from_quote n quote).
Proof.
  intros D. split; [|split].
  - intros S. now apply buy_with_usdc_manual_raises.
  - intros amount_int quote data kv tx_b64 tx_bytes vtx S U Q G T W P Tp B
      I1 I2 I3 V.
    now apply (manual_signing_raises cfg h n keypair usdc_amount amount_int
                 quote data kv tx_b64 tx_bytes vtx).
  - intros amount_int quote data S U Q G T.
    now apply (buy_with_usdc_sdk cfg h n keypair usdc_amount amount_int quote data).
Qed.

Lemma build_and_sign_outcome_witness :
  is_raise (snd (buy_with_usdc (live_config false) sample_host sample_net
                   sample_keypair 5%float)) = true
  /\ buy_with_usdc (live_config false) sample_host sample_net sample_keypair
       5%float
     = ([LogInfo BUY_REQUESTED [JFloat 5%float]; QuoteRequest 5000000;
         SwapBuildRequest sample_quote (pubkey sample_keypair);
         DeserializeTx [1; 0; 1; 3]],
        Raise (RuntimeError
                 "Manual signing of Jupiter versioned txns is advanced. Use jupiter-python-sdk or follow Jupiter docs. See comments in code."))
  /\ snd (buy_with_usdc (live_config true) sample_host sample_net
            sample_keypair 5%float)
     = sdk_swap_from_quote sample_net sample_quote.
Proof.
  split; [|split].
  - apply (build_and_sign_outcome (live_config false) sample_host sample_net
             sample_keypair 5%float eq_refl). reflexivity.
  - apply (proj1 (proj2 (build_and_sign_outcome (live_config false)
                           sample_host sample_net sample_keypair 5%float
                           eq_refl))
             5000000 sample_quote
             (JList [JDict [("outAmount", JStr "33214377")]])
             [("swapTransaction", JStr "AQABAw==")] (JStr "AQABAw==")
             [1; 0; 1; 3] [1; 0; 1; 3]);
      reflexivity.
  - apply (proj2 (proj2 (build_and_sign_outcome (live_config true) sample_host
                           sample_net sample_keypair 5%float eq_refl))
             5000000 sample_quote
             (JList [JDict [("outAmount", JStr "33214377")]]));
      reflexivity.
Defined.

(** ** Failures *)

(** A pass of the loop in which anything raised (the buy, caught by the inner
    [except], or the fetch, caught by the outer one) leaves every field of
    [STATE] as it was: after a failed buy [holding] is still false. While
    holding, the pass makes no execution call and no request at all, and
    nothing but the fetch can raise. *)
Lemma failure_keeps_state cfg h n keypair s :
  (raised (trace_of (monitor_iteration cfg h n keypair s)) = true ->
   state_of (monitor_iteration cfg h n keypair s) = s)
  /\ (holding s = true ->
      execution_invoked (trace_of (monitor_iteration cfg h n keypair s)) = false
      /\ existsb external_event
           (trace_of (monitor_iteration cfg h n keypair s)) = false
      /\ raised (trace_of (monitor_iteration cfg h n keypair s))
         = is_raise (fetch_sol_24h_change_and_price n)).
Proof.
  destruct (fetch_sol_24h_change_and_price n) as [[price pct24]|e] eqn:F.
  2:{ rewrite (monitor_iteration_fetch_raises cfg h n keypair e s F).
      split; [reflexivity|]. intros _. repeat split. }
  split.
  - destruct (holding s) eqn:H.
    + rewrite (iteration_while_holding cfg h n keypair price pct24 s F H).
      destruct (take_profit_reached s price); cbn; intros R;
        [discriminate|reflexivity].
    + destruct (drop_reached s pct24) eqn:C.
      * destruct (buy_with_usdc cfg h n keypair 5%float) as [tb [res|e]] eqn:B.
        -- rewrite (iteration_buy_ok cfg h n keypair price pct24 s tb res F H C B).
           cbn -[sell_step]. rewrite sell_step_eq.
           unfold raised. rewrite existsb_app.
           change (existsb is_exception tb) with (raised tb).
           rewrite (buy_with_usdc_ok_not_raised _ _ _ _ _ _ _ B).
           destruct (take_profit_reached _ price); cbn; intros R; discriminate.
        -- rewrite (iteration_buy_fails cfg h n keypair price pct24 s tb e F H C B).
           reflexivity.
      * rewrite (iteration_flat_idle cfg h n keypair price pct24 s F H C).
        reflexivity.
  - intros H.
    rewrite (iteration_while_holding cfg h n keypair price pct24 s F H).
    destruct (take_profit_reached s price); repeat split.
Qed.

(** The buy half at work: live mode without the SDK, the buy raises and
    [STATE] is untouched. *)
Example failed_buy_keeps_state :
  raised (trace_of (monitor_iteration (live_config false) sample_host
                      sample_net sample_keypair STATE)) = true
  /\ state_of (monitor_iteration (live_config false) sample_host sample_net
                 sample_keypair STATE) = STATE.
Proof. split; vm_compute; reflexivity. Qed.

(** C2. A failed attempt leaves the position as it was. When the buy raises,
    the pass logs it and every field of [STATE] is unchanged, so [holding] is
    still false. While a position is held, a pass in which anything raises
    leaves [STATE] unchanged, so [holding] is still true: the position is
    closed only by passes in which nothing raised. *)
Theorem failed_attempt_keeps_position cfg h n keypair s :
  (forall price pct24 tb e,
      fetch_sol_24h_change_and_price n = Ok (price, pct24) ->
      holding s = false ->
      drop_reached s pct24 = true ->
      buy_with_usdc cfg h n keypair 5%float = (tb, Raise e) ->
      raised (trace_of (monitor_iteration cfg h n keypair s)) = true
      /\ state_of (monitor_iteration cfg h n keypair s) = s
      /\ holding (state_of (monitor_iteration cfg h n keypair s)) = false)
  /\ (holding s = true ->
      raised (trace_of (monitor_iteration cfg h n keypair s)) = true ->
      state_of (monitor_iteration cfg h n keypair s) = s
      /\ holding (state_of (monitor_iteration cfg h n keypair s)) = true)
  /\ (holding s = true ->
      holding (state_of (monitor_iteration cfg h n keypair s)) = false ->
      raised (trace_of (monitor_iteration cfg h n keypair s)) = false).
Proof.
  split; [|split].
  - intros price pct24 tb e F H C B.
    rewrite (iteration_buy_fails cfg h n keypair price pct24 s tb e F H C B).
    repeat split; [|exact H].
    unfold raised. cbn. rewrite existsb_app. cbn. apply orb_true_r.
  - intros H R.
    pose proof (proj1 (failure_keeps_state cfg h n keypair s) R) as E.
    rewrite E. split; [reflexivity|exact H].
  - intros H C.
    destruct (raised (trace_of (monitor_iteration cfg h n keypair s))) eqn:R;
      [|reflexivity].
    pose proof (proj1 (failure_keeps_state cfg h n keypair s) R) as E.
    rewrite E, H in C. discriminate C.
Qed.

Lemma failed_attempt_keeps_position_witness :
  (raised (trace_of (monitor_iteration (live_config false) sample_host
                       sample_net sample_keypair STATE)) = true
   /\ state_of (monitor_iteration (live_config false) sample_host sample_net
                  sample_keypair STATE) = STATE
   /\ holding (state_of (monitor_iteration (live_config false) sample_host
                           sample_net sample_keypair STATE)) = false)
  /\ (state_of (monitor_iteration dry_config sample_host failing_feed
                  sample_keypair (holding_at 100 2)) = holding_at 100 2
      /\ holding (state_of (monitor_iteration dry_config sample_host
                              failing_feed sample_keypair (holding_at 100 2)))
         = true)
  /\ raised (trace_of (monitor_iteration dry_config sample_host (net_at 102 0)
                         sample_keypair (holding_at 100 2))) = false.
Proof.
  split; [|split].
  - apply (proj1 (failed_attempt_keeps_position (live_config false)
                    sample_host sample_net sample_keypair STATE)
             150%float (-6)%float
             (fst (buy_with_usdc (live_config false) sample_host sample_net
                     sample_keypair 5%float))
             (RuntimeError MANUAL_SIGNING_MSG));
      reflexivity.
  - apply (proj1 (proj2 (failed_attempt_keeps_position dry_config sample_host
                           failing_feed sample_keypair (holding_at 100 2))));
      reflexivity.
  - apply (proj2 (proj2 (failed_attempt_keeps_position dry_config sample_host
                           (net_at 102 0) sample_keypair (holding_at 100 2))));
      reflexivity.
Defined.

(** The sell itself is three writes: holding at 100 with a 2% target, a price
    of 102 closes the position in a pass that calls no execution path and
    sends nothing, in live mode as in dry-run mode. *)
Example sell_clears_position_without_execution :
  forall cfg,
    monitor_iteration cfg sample_host (net_at 102 0) sample_keypair
      (holding_at 100 2)
    = ([LogInfo "SOL price ${price:.4f}, 24h change {pct24:.2f}%"
                [JFloat 102; JFloat 0];
        LogInfo SELL_MSG [];
        Sleep 60],
       {| buy_drop_pct := 5%float;
          take_profit_pct := 2%float;
          holding := false;
          last_buy_price := None;
          position_amount_sol := 0%float |},
       Ok tt).
Proof.
  intros cfg.
  rewrite (iteration_while_holding cfg sample_host (net_at 102 0)
             sample_keypair 102%float 0%float (holding_at 100 2)
             eq_refl eq_refl).
  reflexivity.
Qed.

(** ** Take profit *)




(** The scenario of the specification: entry 100, target 2%. *)
Example take_profit_scenario :
  sell_issued
    (trace_of (monitor_iteration dry_config sample_host
                 (net_at 0x1.97f5c28f5c28fp+6 0) sample_keypair
                 (holding_at 100 2))) = false
  /\ state_of (monitor_iteration dry_config sample_host (net_at 102 0)
                 sample_keypair (holding_at 100 2))
     = sold (holding_at 100 2).
Proof. split; vm_compute; reflexivity. Qed.

(** ** Buying *)

(** A triggered buy is called with the literal of line 217. *)
Lemma loop_buys_five cfg h n keypair s price pct24 :
  fetch_sol_24h_change_and_price n = Ok (price, pct24) ->
  holding s = false ->
  drop_reached s pct24 = true ->
  buy_amounts (trace_of (monitor_iteration cfg h n keypair s)) = [5%float].
Proof.
  intros F H C.
  pose proof (buy_with_usdc_amount cfg h n keypair 5%float) as A.
  destruct (buy_with_usdc cfg h n keypair 5%float) as [tb [res|e]] eqn:B;
    cbn in A.
  - rewrite (iteration_buy_ok cfg h n keypair price pct24 s tb res F H C B).
    cbn -[sell_step]. rewrite sell_step_eq.
    rewrite buy_amounts_app, A.
    destruct (take_profit_reached _ price); destruct res; reflexivity.
  - rewrite (iteration_buy_fails cfg h n keypair price pct24 s tb e F H C B).
    cbn. rewrite buy_amounts_app, A. reflexivity.
Qed.

(** C4, as stated, fails: there is no trade size among the parameters. No
    reading [trade_size] of the configuration and [STATE] can both be the
    quantity of every triggered buy and take two values: the loop passes the
    literal 5.0. *)
Lemma no_configured_trade_size :
  ~ (exists trade_size : Config -> State -> float,
        (forall cfg h n keypair s price pct24,
            fetch_sol_24h_change_and_price n = Ok (price, pct24) ->
            holding s = false ->
            PrimFloat.ltb 0%float (buy_drop_pct s) = true ->
            PrimFloat.leb pct24 (PrimFloat.opp (buy_drop_pct s)) = true ->
            buy_amounts (trace_of (monitor_iteration cfg h n keypair s))
              = [trade_size cfg s])
        /\ (exists cfg1 s1 cfg2 s2,
               holding s1 = false /\ holding s2 = false
               /\ PrimFloat.ltb 0%float (buy_drop_pct s1) = true
               /\ PrimFloat.ltb 0%float (buy_drop_pct s2) = true
               /\ trade_size cfg1 s1 <> trade_size cfg2 s2)).
Proof.
  intros (trade_size & U & cfg1 & s1 & cfg2 & s2 & H1 & H2 & P1 & P2 & N).
  assert (A : forall cfg s,
             holding s = false ->
             PrimFloat.ltb 0%float (buy_drop_pct s) = true ->
             trade_size cfg s = 5%float).
  { intros cfg s H P.
    pose proof (leb_opp_positive_refl _ P) as T.
    pose proof (U cfg sample_host (net_at 1 (PrimFloat.opp (buy_drop_pct s)))
                  sample_keypair s 1%float (PrimFloat.opp (buy_drop_pct s))
                  eq_refl H P T) as E.
    rewrite (loop_buys_five cfg sample_host
               (net_at 1 (PrimFloat.opp (buy_drop_pct s))) sample_keypair s
               1%float (PrimFloat.opp (buy_drop_pct s)) eq_refl H) in E.
    - exact (eq_sym (f_equal (fun l => hd 0%float l) E)).
    - unfold drop_reached. now rewrite (abs_of_positive _ P). }
  apply N. now rewrite (A cfg1 s1 H1 P1), (A cfg2 s2 H2 P2).
Qed.

(** C4, amended. While flat, with a positive [buy_drop_pct], a snapshot with
    [pct24 <= -buy_drop_pct] makes the pass call [buy_with_usdc] once, with
    the constant amount 5.0. *)
Theorem buy_uses_fixed_size cfg h n keypair s price pct24 :
  fetch_sol_24h_change_and_price n = Ok (price, pct24) ->
  holding s = false ->
  PrimFloat.ltb 0%float (buy_drop_pct s) = true ->
  PrimFloat.leb pct24 (PrimFloat.opp (buy_drop_pct s)) = true ->
  buy_amounts (trace_of (monitor_iteration cfg h n keypair s)) = [5%float].
Proof.
  intros F H P T.
  apply (loop_buys_five cfg h n keypair s price pct24 F H).
  unfold drop_reached. now rewrite (abs_of_positive _ P).
Qed.

Lemma buy_uses_fixed_size_witness :
  buy_amounts
    (trace_of (monitor_iteration dry_config sample_host sample_net
                 sample_keypair STATE)) = [5%float].
Proof.
  apply (buy_uses_fixed_size dry_config sample_host sample_net sample_keypair
           STATE 150%float (-6)%float); reflexivity.
Defined.

(** C5. With a positive threshold, a snapshot whose change is above
    [-buy_drop_pct] makes a flat pass buy nothing; [STATE] stays as it was. *)
Theorem no_buy_above_threshold cfg h n keypair s price pct24 :
  fetch_sol_24h_change_and_price n = Ok (price, pct24) ->
  holding s = false ->
  PrimFloat.ltb 0%float (buy_drop_pct s) = true ->
  PrimFloat.ltb (PrimFloat.opp (buy_drop_pct s)) pct24 = true ->
  buy_amounts (trace_of (monitor_iteration cfg h n keypair s)) = []
  /\ state_of (monitor_iteration cfg h n keypair s) = s.
Proof.
  intros F H P A.
  assert (C : drop_reached s pct24 = false).
  { unfold drop_reached. rewrite (abs_of_positive _ P).
    now apply ltb_not_leb. }
  rewrite (iteration_flat_idle cfg h n keypair price pct24 s F H C).
  split; reflexivity.
Qed.

Lemma no_buy_above_threshold_witness :
  buy_amounts
    (trace_of (monitor_iteration dry_config sample_host (net_at 150 (-4.5))
                 sample_keypair STATE)) = []
  /\ state_of (monitor_iteration dry_config sample_host (net_at 150 (-4.5))
                 sample_keypair STATE) = STATE.
Proof.
  apply (no_buy_above_threshold dry_config sample_host (net_at 150 (-4.5))
           sample_keypair STATE 150%float (-4.5)%float); reflexivity.
Defined.

(** C6. A buy that returns opens the position at the snapshot price, and
    records the quantity 0.0 whatever the swap result says. *)
Theorem buy_records_zero_quantity cfg h n keypair s price pct24 tb res :
  holding s = false ->
  drop_reached s pct24 = true ->
  buy_with_usdc cfg h n keypair 5%float = (tb, Ok res) ->
  let s' := state_of (buy_step cfg h n keypair price pct24 s) in
  holding s' = true
  /\ last_buy_price s' = Some price
  /\ position_amount_sol s' = 0%float.
Proof.
  intros H C B.
  rewrite (buy_step_ok cfg h n keypair price pct24 s tb res)
    by (try rewrite H, C; auto).
  repeat split.
Qed.

(** The swap reports 33214377 lamports bought; [STATE] says 0.0. *)
Lemma buy_records_zero_quantity_witness :
  dict_get
    [("txid", JStr "5VERv8"); ("outAmount", JInt 33214377)] "outAmount"
    = JInt 33214377
  /\ position_amount_sol
       (state_of (monitor_iteration (live_config true) sample_host sample_net
                    sample_keypair STATE)) = 0%float
  /\ position_amount_sol
       (state_of (buy_step (live_config true) sample_host sample_net
                    sample_keypair 150%float (-6)%float STATE)) = 0%float.
Proof.
  split; [reflexivity|]. split; [reflexivity|].
  apply (buy_records_zero_quantity (live_config true) sample_host sample_net
           sample_keypair STATE 150%float (-6)%float
           (fst (buy_with_usdc (live_config true) sample_host sample_net
                   sample_keypair 5%float))
           (JDict [("txid", JStr "5VERv8"); ("outAmount", JInt 33214377)]));
    reflexivity.
Defined.

(** ** The position invariant *)

Lemma position_inv_bought price s : position_inv (bought price s).
Proof. unfold position_inv; cbn. split; [reflexivity|discriminate]. Qed.

Lemma position_inv_sold s : position_inv (sold s).
Proof. unfold position_inv; cbn. split; [congruence|discriminate]. Qed.

Lemma sell_step_inv price s :
  position_inv s -> position_inv (state_of (sell_step price s)).
Proof.
  intros I. rewrite sell_step_eq.
  destruct (take_profit_reached s price); [apply position_inv_sold|exact I].
Qed.

Lemma monitor_iteration_inv cfg h n keypair s :
  position_inv s ->
  position_inv (state_of (monitor_iteration cfg h n keypair s)).
Proof.
  intros I.
  destruct (fetch_sol_24h_change_and_price n) as [[price pct24]|e] eqn:F.
  2:{ now rewrite (monitor_iteration_fetch_raises cfg h n keypair e s F). }
  rewrite (monitor_iteration_fetch_ok cfg h n keypair price pct24 s F).
  cbn -[sell_step buy_step]. apply sell_step_inv.
  destruct (negb (holding s) && drop_reached s pct24) eqn:C.
  - destruct (buy_with_usdc cfg h n keypair 5%float) as [tb [res|e]] eqn:B.
    + rewrite (buy_step_ok cfg h n keypair price pct24 s tb res C B).
      apply position_inv_bought.
    + now rewrite (buy_step_fail cfg h n keypair price pct24 s tb e C B).
  - now rewrite (buy_step_skip cfg h n keypair price pct24 s C).
Qed.

(** The handlers write the two thresholds and nothing else. *)
Lemma run_command_position cfg h c s :
  holding (state_of (run_command cfg h c s)) = holding s
  /\ last_buy_price (state_of (run_command cfg h c s)) = last_buy_price s
  /\ position_amount_sol (state_of (run_command cfg h c s))
     = position_amount_sol s.
Proof.
  destruct c as [|args|args| |n args|]; cbn; try (repeat split; reflexivity).
  - unfold setbuy_cmd, tryM, bindM, liftIO, liftR, arg0, bindR.
    destruct args as [|a rest]; cbn; [repeat split|].
    destruct (float_of_str h a); cbn; repeat split.
  - unfold settp_cmd, tryM, bindM, liftIO, liftR, arg0, bindR.
    destruct args as [|a rest]; cbn; [repeat split|].
    destruct (float_of_str h a); cbn; repeat split.
  - unfold manualbuy_cmd, tryM, bindM, liftIO, liftR, emitM.
    destruct args as [|a rest]; cbn -[buy_with_usdc load_keypair];
      [repeat split|].
    destruct (float_of_str h a) as [usdc_amount|e];
      cbn -[buy_with_usdc load_keypair]; [|repeat split].
    destruct (load_keypair cfg h) as [keypair|e];
      cbn -[buy_with_usdc]; [|repeat split].
    destruct (buy_with_usdc cfg h n keypair usdc_amount) as [tb [res|e]];
      cbn; repeat split.
Qed.

Lemma run_command_inv cfg h c s :
  position_inv s -> position_inv (state_of (run_command cfg h c s)).
Proof.
  unfold position_inv.
  destruct (run_command_position cfg h c s) as (Hh & Hl & _).
  rewrite Hh, Hl. auto.
Qed.

(** C7. In every state reachable from [STATE] through passes of the loop and
    commands, [last_buy_price] is not [None] exactly when [holding] is true. *)
Theorem position_invariant cfg h s :
  reachable cfg h s -> position_inv s.
Proof.
  induction 1 as [|s n keypair R IH L|s c R IH].
  - unfold position_inv; cbn. split; [congruence|discriminate].
  - now apply monitor_iteration_inv.
  - now apply run_command_inv.
Qed.

Lemma position_invariant_witness :
  position_inv
    (state_of (run_command dry_config sample_host (SetBuy ["7.5"])
       (state_of (monitor_iteration dry_config sample_host sample_net
                    (mkKeypair (repeat 7 64) (pubkey sample_keypair)) STATE)))).
Proof.
  apply (position_invariant dry_config sample_host).
  apply reach_command. apply reach_tick; [apply reach_init|reflexivity].
Defined.

(** ** Credentials *)

(** Without a keypair the loop never starts, so the position never opens. *)
Lemma no_trading_without_keypair cfg h s :
  is_raise (load_keypair cfg h) = true ->
  reachable cfg h s -> holding s = false.
Proof.
  intros L. induction 1 as [|s n keypair R IH K|s c R IH].
  - reflexivity.
  - rewrite K in L. discriminate.
  - destruct (run_command_position cfg h c s) as (Hh & _). now rewrite Hh.
Qed.

(** [main] stops only for a missing token. *)
Lemma main_raises_iff_no_token cfg h :
  is_raise (main cfg h) = true <-> env_truthy (TELEGRAM_TOKEN cfg) = false.
Proof.
  unfold main. destruct (env_truthy (TELEGRAM_TOKEN cfg)); cbn;
    split; congruence.
Qed.

(** The test keypair loads from each source of [keyed_host] alone. *)
Lemma test_keypair_loads :
  load_keypair (only_b58 both_keys_config) keyed_host
    = Ok (mkKeypair TEST_KEYPAIR TEST_PUBKEY)
  /\ load_keypair (only_json both_keys_config) keyed_host
    = Ok (mkKeypair TEST_KEYPAIR TEST_PUBKEY).
Proof. split; vm_compute; reflexivity. Qed.

(** C9, as stated, fails, also where every configured source is a good one:
    with the test keypair configured both as an encoded secret and as a file,
    each of which loads alone, the sources are two, yet nothing raises. *)
Lemma both_sources_load :
  ~ (forall cfg h,
        (env_truthy (PRIVATE_KEY_B58 cfg) = true ->
         is_raise (load_keypair (only_b58 cfg) h) = false) ->
        (json_usable cfg h = true ->
         is_raise (load_keypair (only_json cfg) h) = false) ->
        (is_raise (load_keypair cfg h) = true
         <-> exactly_one_source cfg h = false)).
Proof.
  intros H.
  destruct (H both_keys_config keyed_host) as [_ B].
  - intros _. now rewrite (proj1 test_keypair_loads).
  - intros _. now rewrite (proj2 test_keypair_loads).
  - specialize (B eq_refl). vm_compute in B. discriminate.
Qed.

(** C9, amended. Provided each configured source loads when it is the only
    one, loading fails exactly when no source is usable: the encoded secret is
    unset or empty, and the keypair path is unset, empty or names no file.
    So unless both are configured it fails exactly when the sources are not
    exactly one; with both the encoded secret is loaded and the file ignored.
    A failure is not fatal to startup: [main] raises exactly when the token is
    missing, and otherwise registers its six commands and starts the monitor
    task, whose first step is the loading; when that fails no pass of the loop
    runs and the position is never opened. *)
Theorem load_keypair_fails_iff_no_source cfg h :
  (env_truthy (PRIVATE_KEY_B58 cfg) = true ->
   is_raise (load_keypair (only_b58 cfg) h) = false) ->
  (json_usable cfg h = true ->
   is_raise (load_keypair (only_json cfg) h) = false) ->
  (is_raise (load_keypair cfg h) = true
   <-> env_truthy (PRIVATE_KEY_B58 cfg) = false /\ json_usable cfg h = false)
  /\ (env_truthy (PRIVATE_KEY_B58 cfg) && json_usable cfg h = false ->
      (is_raise (load_keypair cfg h) = true
       <-> exactly_one_source cfg h = false))
  /\ (env_truthy (PRIVATE_KEY_B58 cfg) = true ->
      load_keypair cfg h = load_keypair (only_b58 cfg) h)
  /\ (is_raise (main cfg h) = true
      <-> env_truthy (TELEGRAM_TOKEN cfg) = false)
  /\ (env_truthy (TELEGRAM_TOKEN cfg) = true ->
      main cfg h
      = Ok {| commands := ["start"; "setbuy"; "settp"; "status"; "manualbuy";
                           "manualsell"];
              monitor_start := load_keypair cfg h |})
  /\ (is_raise (load_keypair cfg h) = true ->
      forall s, reachable cfg h s -> holding s = false).
Proof.
  intros HB HJ.
  assert (A : (is_raise (load_keypair cfg h) = true
               <-> env_truthy (PRIVATE_KEY_B58 cfg) = false
                   /\ json_usable cfg h = false)
              /\ (env_truthy (PRIVATE_KEY_B58 cfg) = true ->
                  load_keypair cfg h = load_keypair (only_b58 cfg) h)).
  { revert HB HJ.
    unfold load_keypair, json_usable, only_b58, only_json; cbn.
    destruct (env_truthy (PRIVATE_KEY_B58 cfg)) eqn:B; cbn.
    - intros HB _. rewrite (HB eq_refl). split; [|reflexivity].
      split; [discriminate|]. intros [E _]; discriminate.
    - intros _ HJ.
      destruct (env_truthy (PRIVATE_KEY_JSON cfg)
                && path_exists h (env_str (PRIVATE_KEY_JSON cfg))) eqn:J.
      + rewrite (HJ eq_refl). split; [|discriminate].
        split; [discriminate|]. intros [_ E]; discriminate.
      + cbn. split; [|discriminate]. split; auto. }
  destruct A as [A1 A2].
  split; [exact A1|]. split.
  { unfold exactly_one_source. rewrite A1.
    destruct (env_truthy (PRIVATE_KEY_B58 cfg)), (json_usable cfg h); cbn;
      intros N; try discriminate N; split; try tauto; try discriminate;
      intros [X Y]; discriminate. }
  split; [exact A2|].
  split; [apply main_raises_iff_no_token|]. split.
  - intros T. unfold main, monitor_task_start. now rewrite T.
  - intros L s R. now apply (no_trading_without_keypair cfg h).
Qed.

Lemma load_keypair_fails_iff_no_source_witness :
  load_keypair both_keys_config keyed_host
    = load_keypair (only_b58 both_keys_config) keyed_host
  /\ is_raise (load_keypair no_keys_config keyed_host) = true
  /\ main no_keys_config keyed_host
     = Ok {| commands := ["start"; "setbuy"; "settp"; "status"; "manualbuy";
                          "manualsell"];
             monitor_start := load_keypair no_keys_config keyed_host |}.
Proof.
  destruct (load_keypair_fails_iff_no_source both_keys_config keyed_host)
    as (_ & _ & P & _).
  { intros _. vm_compute. reflexivity. }
  { intros _. vm_compute. reflexivity. }
  destruct (load_keypair_fails_iff_no_source no_keys_config keyed_host)
    as (F & _ & _ & _ & M & _).
  { discriminate. }
  { discriminate. }
  split; [|split].
  - apply P. reflexivity.
  - apply F. split; reflexivity.
  - apply M. reflexivity.
Defined.

(** ** The sign of the threshold *)

Lemma setbuy_cmd_sets h a rest v s :
  float_of_str h a = Ok v ->
  state_of (setbuy_cmd h (a :: rest) s) = set_buy_drop_pct v s.
Proof.
  intros P. unfold setbuy_cmd, tryM, bindM, liftIO, liftR, arg0, bindR.
  cbn. rewrite P. reflexivity.
Qed.

(** C10. The buy condition is the same for a threshold [v] and for [-v]:
    only [abs] of it is compared. *)
Theorem buy_trigger_ignores_sign s pct24 v :
  drop_reached (set_buy_drop_pct (PrimFloat.opp v) s) pct24
  = drop_reached (set_buy_drop_pct v s) pct24.
Proof.
  unfold drop_reached; cbn. now rewrite abs_opp.
Qed.

(** [/setbuy] stores whatever float it parses, negative ones too, so two
    arguments of opposite sign arm the same trigger. *)
Lemma setbuy_cmd_ignores_sign h a a' v s pct24 :
  float_of_str h a = Ok v ->
  float_of_str h a' = Ok (PrimFloat.opp v) ->
  drop_reached (state_of (setbuy_cmd h [a'] s)) pct24
  = drop_reached (state_of (setbuy_cmd h [a] s)) pct24.
Proof.
  intros P P'.
  rewrite (setbuy_cmd_sets h a [] v s P), (setbuy_cmd_sets h a' [] _ s P').
  unfold drop_reached; cbn. now rewrite abs_opp.
Qed.

(** [/setbuy -5] arms the same trigger as [/setbuy 5]. *)
Example negative_threshold_buys :
  buy_amounts
    (trace_of (monitor_iteration dry_config sample_host sample_net
                 sample_keypair (set_buy_drop_pct (-5)%float STATE)))
  = [5%float].
Proof. vm_compute. reflexivity. Qed.

(** * Further properties *)

(** ** The dry-run switch *)

Ltac by_ascii_cases c :=
  destruct c as [[] [] [] [] [] [] [] []]; vm_compute;
  (split; [intros E; try discriminate E; auto
          |intros [E|E]; try discriminate E; reflexivity]).

Lemma ascii_lower_t c : ascii_lower c = "t"%char <-> c = "t"%char \/ c = "T"%char.
Proof. by_ascii_cases c. Qed.

Lemma ascii_lower_r c : ascii_lower c = "r"%char <-> c = "r"%char \/ c = "R"%char.
Proof. by_ascii_cases c. Qed.

Lemma ascii_lower_u c : ascii_lower c = "u"%char <-> c = "u"%char \/ c = "U"%char.
Proof. by_ascii_cases c. Qed.

Lemma ascii_lower_e c : ascii_lower c = "e"%char <-> c = "e"%char \/ c = "E"%char.
Proof. by_ascii_cases c. Qed.

(** X1. Dry run is on when [DRY_RUN] is unset or spells "true" in any mix of
    cases, and off for every other value: "1", "yes", "on", the empty string
    or "true" with a space all switch to live trading. *)
Theorem DRY_RUN_only_true v :
  DRY_RUN_of_env v = true <->
  v = None
  \/ exists a b c d,
       v = Some (String a (String b (String c (String d EmptyString))))
       /\ (a = "t"%char \/ a = "T"%char) /\ (b = "r"%char \/ b = "R"%char)
       /\ (c = "u"%char \/ c = "U"%char) /\ (d = "e"%char \/ d = "E"%char).
Proof.
  unfold DRY_RUN_of_env. rewrite String.eqb_eq.
  destruct v as [s|]; [|split; [now left|reflexivity]].
  split.
  - intros E. right.
    destruct s as [|a [|b [|c [|d [|x rest]]]]]; cbn in E; try discriminate E.
    injection E as Ea Eb Ec Ed.
    exists a, b, c, d. split; [reflexivity|].
    now rewrite <- ascii_lower_t, <- ascii_lower_r, <- ascii_lower_u,
      <- ascii_lower_e.
  - intros [E|(a & b & c & d & E & Ha & Hb & Hc & Hd)]; [discriminate E|].
    injection E as ->. cbn.
    apply ascii_lower_t in Ha. apply ascii_lower_r in Hb.
    apply ascii_lower_u in Hc. apply ascii_lower_e in Hd.
    now rewrite Ha, Hb, Hc, Hd.
Qed.

(** ** The keypair file *)

Lemma bytes_of_list_bytes l :
  Forall is_byte l -> bytes_of_list (map JInt l) = Ok l.
Proof.
  induction 1 as [|z l [Hlo Hhi] _ IH]; [reflexivity|].
  cbn. replace (0 <=? z) with true by (symmetry; now apply Z.leb_le).
  replace (z <? 256) with true by (symmetry; now apply Z.ltb_lt).
  cbn. now rewrite IH.
Qed.

(** X2. A JSON array of numbers in [0, 256) comes back from [bytes(arr)] as
    the same numbers, in order. *)
Theorem py_bytes_of_byte_array l :
  Forall is_byte l -> py_bytes (JList (map JInt l)) = Ok l.
Proof.
  cbn. induction 1 as [|z l [Hlo Hhi] _ IH]; [reflexivity|].
  cbn. replace (0 <=? z) with true by (symmetry; now apply Z.leb_le).
  replace (z <? 256) with true by (symmetry; now apply Z.ltb_lt).
  cbn. now rewrite IH.
Qed.

Lemma py_bytes_of_byte_array_witness :
  py_bytes (JList (map JInt [0; 17; 255])) = Ok [0; 17; 255].
Proof.
  apply py_bytes_of_byte_array.
  repeat constructor; unfold is_byte; lia.
Defined.

(** X3. When [bytes(arr)] accepts a JSON array, it returns one byte in
    [0, 256) per element, and every element was an integer in that range or a
    bool: a float, a string, [null], a nested array, 256 or -1 anywhere in the
    file make it raise. *)
Theorem py_bytes_accepts_only_bytes l bs :
  py_bytes (JList l) = Ok bs ->
  List.length bs = List.length l
  /\ Forall is_byte bs
  /\ Forall (fun v => (exists z, v = JInt z /\ is_byte z)
                      \/ (exists b, v = JBool b)) l.
Proof.
  cbn.
  revert bs. induction l as [|v l IH]; intros bs E; cbn in E.
  - inversion E; subst. repeat split; constructor.
  - destruct (byte_of_json v) as [b|e] eqn:B; cbn in E; [|discriminate E].
    destruct (bytes_of_list l) as [bs'|e] eqn:L; cbn in E; [|discriminate E].
    inversion E; subst. destruct (IH bs' eq_refl) as (Hlen & Hbs & Hl).
    assert (is_byte b /\ ((exists z, v = JInt z /\ is_byte z)
                          \/ (exists c, v = JBool c))) as [Hb Hv].
    { destruct v; cbn in B; try discriminate B.
      - inversion B; subst. split; [destruct b0; unfold is_byte; lia|].
        right; eauto.
      - destruct ((0 <=? z) && (z <? 256)) eqn:R; [|discriminate B].
        inversion B; subst. apply andb_prop in R as [R1 R2].
        apply Z.leb_le in R1. apply Z.ltb_lt in R2.
        assert (is_byte b) by (unfold is_byte; lia).
        split; [assumption|]. left; eauto. }
    repeat split; cbn; [now rewrite Hlen|now constructor|now constructor].
Qed.

Lemma py_bytes_accepts_only_bytes_witness :
  List.length [1; 2] = List.length [JBool true; JInt 2] /\ Forall is_byte [1; 2].
Proof.
  destruct (py_bytes_accepts_only_bytes [JBool true; JInt 2] [1; 2] eq_refl)
    as (Hlen & Hbs & _).
  split; assumption.
Defined.

(** X4. With no encoded secret configured and a keypair file that is there
    and holds an array of bytes, [load_keypair] hands exactly those bytes to
    [Keypair.from_bytes]. *)
Theorem load_keypair_from_file cfg h l :
  env_truthy (PRIVATE_KEY_B58 cfg) = false ->
  json_usable cfg h = true ->
  json_load h (env_str (PRIVATE_KEY_JSON cfg)) = Ok (JList (map JInt l)) ->
  Forall is_byte l ->
  load_keypair cfg h = Keypair_from_bytes h l.
Proof.
  intros B J L R. unfold load_keypair. unfold json_usable in J.
  rewrite B, J, L. cbn -[bytes_of_list].
  now rewrite (bytes_of_list_bytes l R).
Qed.

Lemma load_keypair_from_file_witness :
  load_keypair file_config file_host = Keypair_from_bytes file_host [3; 1; 4].
Proof.
  apply (load_keypair_from_file file_config file_host [3; 1; 4]);
    try reflexivity.
  repeat constructor; unfold is_byte; lia.
Defined.

(** ** More on the execution path *)

(** X5. [buy_with_usdc] never gets to the signer without a quote: if a swap
    build request, an SDK swap or a deserialisation is in its trace, then
    dry-run is off, the amount converted, the quote request returned and the
    quote's [data] is true. *)
Theorem signer_needs_quote cfg h n keypair usdc_amount :
  existsb signer_event (fst (buy_with_usdc cfg h n keypair usdc_amount)) = true ->
  DRY_RUN cfg = false
  /\ exists amount_int quote data,
       usdc_units h usdc_amount = Ok amount_int
       /\ jupiter_quote n amount_int = Ok quote
       /\ py_get quote "data" = Ok data
       /\ truthy data = true.
Proof.
  unfold buy_with_usdc, get_jupiter_quote, request_jupiter_swap.
  destruct (DRY_RUN cfg) eqn:D; [cbn; discriminate|].
  cbn.
  destruct (usdc_units h usdc_amount) as [a|e] eqn:U; [|cbn; discriminate].
  cbn.
  destruct (jupiter_quote n a) as [quote|e] eqn:Q; [|cbn; discriminate].
  cbn.
  destruct (py_get quote "data") as [data|e] eqn:G; [|cbn; discriminate].
  cbn.
  destruct (truthy data) eqn:T; [|cbn; discriminate].
  intros _. split; [reflexivity|]. now exists a, quote, data.
Qed.

Lemma signer_needs_quote_witness :
  DRY_RUN (live_config true) = false
  /\ exists amount_int quote data,
       usdc_units sample_host 5%float = Ok amount_int
       /\ jupiter_quote sample_net amount_int = Ok quote
       /\ py_get quote "data" = Ok data
       /\ truthy data = true.
Proof.
  apply (signer_needs_quote (live_config true) sample_host sample_net
           sample_keypair 5%float).
  vm_compute. reflexivity.
Defined.

(** X6. One call makes at most one quote request: exactly one, for the
    converted amount, when dry-run is off and the conversion succeeds, and
    none otherwise. *)
Theorem one_quote_request cfg h n keypair usdc_amount :
  quote_requests (fst (buy_with_usdc cfg h n keypair usdc_amount))
  = match DRY_RUN cfg, usdc_units h usdc_amount with
    | false, Ok amount_int => [amount_int]
    | _, _ => []
    end.
Proof.
  unfold buy_with_usdc, get_jupiter_quote, request_jupiter_swap.
  destruct (DRY_RUN cfg); [reflexivity|].
  cbn. destruct (usdc_units h usdc_amount) as [a|e]; [|reflexivity].
  cbn. repeat (break_match; cbn in *); reflexivity.
Qed.

(** X7. Without the SDK the keypair stays in the process: no event hands it
    over, and every swap build request carries the public key only. *)
Theorem manual_path_keeps_secret cfg h n keypair usdc_amount :
  HAVE_JUPITER_SDK cfg = false ->
  existsb carries_keypair (fst (buy_with_usdc cfg h n keypair usdc_amount))
    = false
  /\ Forall (eq (pubkey keypair))
       (swap_pubkeys (fst (buy_with_usdc cfg h n keypair usdc_amount))).
Proof.
  intros S. unfold buy_with_usdc, get_jupiter_quote, request_jupiter_swap.
  rewrite S. cbn.
  repeat (break_match; cbn in *); split; try reflexivity;
    repeat constructor.
Qed.

Lemma manual_path_keeps_secret_witness :
  existsb carries_keypair
    (fst (buy_with_usdc (live_config false) sample_host sample_net
            sample_keypair 5%float)) = false
  /\ Forall (eq (pubkey sample_keypair))
       (swap_pubkeys
          (fst (buy_with_usdc (live_config false) sample_host sample_net
                  sample_keypair 5%float))).
Proof.
  apply (manual_path_keeps_secret (live_config false) sample_host sample_net
           sample_keypair 5%float).
  reflexivity.
Defined.

(** ** The command handlers *)

Lemma threshold_arg_raises h args :
  (forall v, ~ parses h args v) ->
  exists e, (a <- arg0 args ;; float_of_str h a)%res = Raise e.
Proof.
  intros N. destruct args as [|a rest]; cbn; [eauto|].
  destruct (float_of_str h a) as [v|e] eqn:P; [|eauto].
  exfalso. apply (N v). now exists a, rest.
Qed.

(** X8. [/setbuy] and [/settp] with no argument, or with one that [float]
    refuses, answer with the usage line and leave [STATE] as it was. *)
Theorem threshold_commands_reject_bad_input h args s :
  (forall v, ~ parses h args v) ->
  setbuy_cmd h args s = ([Reply "Usage: /setbuy 5.0  (for 5%)" []], s, Ok tt)
  /\ settp_cmd h args s = ([Reply "Usage: /settp 2.0  (for 2%)" []], s, Ok tt).
Proof.
  intros N. destruct (threshold_arg_raises h args N) as [e E].
  unfold setbuy_cmd, settp_cmd, tryM, bindM, liftIO, liftR.
  rewrite E. split; reflexivity.
Qed.

Lemma threshold_commands_reject_bad_input_witness :
  setbuy_cmd sample_host ["five"] STATE
    = ([Reply "Usage: /setbuy 5.0  (for 5%)" []], STATE, Ok tt)
  /\ settp_cmd sample_host [] STATE
     = ([Reply "Usage: /settp 2.0  (for 2%)" []], STATE, Ok tt).
Proof.
  split.
  - apply (threshold_commands_reject_bad_input sample_host ["five"] STATE).
    intros v (a & rest & E & P). injection E as <- <-. discriminate P.
  - apply (threshold_commands_reject_bad_input sample_host [] STATE).
    intros v (a & rest & E & P). discriminate E.
Defined.

Lemma setbuy_cmd_state h args s :
  state_of (setbuy_cmd h args s)
  = match (a <- arg0 args ;; float_of_str h a)%res with
    | Ok v => set_buy_drop_pct v s
    | Raise _ => s
    end.
Proof.
  unfold setbuy_cmd, tryM, bindM, liftIO, liftR.
  destruct (a <- arg0 args ;; float_of_str h a)%res; reflexivity.
Qed.

Lemma settp_cmd_state h args s :
  state_of (settp_cmd h args s)
  = match (a <- arg0 args ;; float_of_str h a)%res with
    | Ok v => set_take_profit_pct v s
    | Raise _ => s
    end.
Proof.
  unfold settp_cmd, tryM, bindM, liftIO, liftR.
  destruct (a <- arg0 args ;; float_of_str h a)%res; reflexivity.
Qed.

(** X9. [/setbuy] and [/settp] do not interfere: in either order they leave
    the same [STATE], whatever their arguments. *)
Theorem threshold_commands_commute h args1 args2 s :
  state_of (settp_cmd h args2 (state_of (setbuy_cmd h args1 s)))
  = state_of (setbuy_cmd h args1 (state_of (settp_cmd h args2 s))).
Proof.
  rewrite !setbuy_cmd_state, !settp_cmd_state.
  destruct (a <- arg0 args1 ;; float_of_str h a)%res;
    destruct (a <- arg0 args2 ;; float_of_str h a)%res; reflexivity.
Qed.

(** X10. [/status] after an accepted [/setbuy v] reports [v] as
    [buy_drop_pct] and the other four entries as they were, and changes
    nothing. *)
Theorem status_after_setbuy h args v s :
  parses h args v ->
  let s' := state_of (setbuy_cmd h args s) in
  exists report,
    status_cmd s' = ([Reply "State:\n{s}" [report]], s', Ok tt)
    /\ py_get report "buy_drop_pct" = Ok (JFloat v)
    /\ py_get report "take_profit_pct" = py_get (state_json s) "take_profit_pct"
    /\ py_get report "holding" = py_get (state_json s) "holding"
    /\ py_get report "last_buy_price" = py_get (state_json s) "last_buy_price"
    /\ py_get report "position_amount_sol"
       = py_get (state_json s) "position_amount_sol".
Proof.
  intros (a & rest & -> & P). cbn zeta.
  rewrite setbuy_cmd_state. cbn. rewrite P.
  exists (state_json (set_buy_drop_pct v s)). repeat split.
Qed.

Lemma status_after_setbuy_witness :
  exists report,
    status_cmd (state_of (setbuy_cmd sample_host ["7.5"] STATE))
      = ([Reply "State:\n{s}" [report]],
         state_of (setbuy_cmd sample_host ["7.5"] STATE), Ok tt)
    /\ py_get report "buy_drop_pct" = Ok (JFloat 7.5%float).
Proof.
  destruct (status_after_setbuy sample_host ["7.5"] 7.5%float STATE)
    as (report & R & B & _).
  - exists "7.5", []. split; reflexivity.
  - exists report. split; assumption.
Defined.

(** X11. [/manualbuy] never writes [STATE]: even after a buy that returned,
    [holding] and the entry price are what they were, so the loop does not
    know about the purchase. *)
Theorem manualbuy_leaves_state cfg h n args s :
  state_of (manualbuy_cmd cfg h n args s) = s.
Proof.
  unfold manualbuy_cmd, tryM, bindM, liftIO, liftR, emitM.
  destruct args as [|a rest]; [reflexivity|].
  destruct (float_of_str h a) as [usdc_amount|e];
    cbn -[buy_with_usdc load_keypair]; [|reflexivity].
  destruct (load_keypair cfg h) as [keypair|e];
    cbn -[buy_with_usdc]; [|reflexivity].
  destruct (buy_with_usdc cfg h n keypair usdc_amount) as [tb [res|e]];
    reflexivity.
Qed.

(** X12. [/manualbuy] loads the keypair before anything else is done, in
    dry-run mode too: without credentials the handler announces the buy, then
    raises, and [buy_with_usdc] is not called. *)
Theorem manualbuy_needs_keypair cfg h n a rest usdc_amount e s :
  float_of_str h a = Ok usdc_amount ->
  load_keypair cfg h = Raise e ->
  value_of (manualbuy_cmd cfg h n (a :: rest) s) = Raise e
  /\ buy_amounts (trace_of (manualbuy_cmd cfg h n (a :: rest) s)) = []
  /\ List.length (trace_of (manualbuy_cmd cfg h n (a :: rest) s)) = 1%nat.
Proof.
  intros P L. unfold manualbuy_cmd, tryM, bindM, liftIO, liftR, emitM.
  rewrite P. cbn -[buy_with_usdc load_keypair]. rewrite L.
  repeat split.
Qed.

Lemma manualbuy_needs_keypair_witness :
  value_of (manualbuy_cmd (mkConfig (Some "token") None None true false)
              sample_host sample_net ["5"] STATE)
  = Raise (RuntimeError NO_KEY_MSG).
Proof.
  apply (manualbuy_needs_keypair (mkConfig (Some "token") None None true false)
           sample_host sample_net "5" [] 5%float (RuntimeError NO_KEY_MSG)
           STATE); reflexivity.
Defined.

(** X13. With an amount that [float] accepts and a keypair that loads,
    [/manualbuy] calls [buy_with_usdc] once with that amount as it is
    (negative, zero or NaN included), does not raise whether the buy returns
    or not, and ends with a reply. *)
Theorem manualbuy_passes_amount cfg h n a rest usdc_amount keypair s :
  float_of_str h a = Ok usdc_amount ->
  load_keypair cfg h = Ok keypair ->
  value_of (manualbuy_cmd cfg h n (a :: rest) s) = Ok tt
  /\ buy_amounts (trace_of (manualbuy_cmd cfg h n (a :: rest) s))
     = [usdc_amount]
  /\ exists t text args,
       trace_of (manualbuy_cmd cfg h n (a :: rest) s)
       = (t ++ [Reply text args])%list.
Proof.
  intros P L.
  pose proof (buy_with_usdc_amount cfg h n keypair usdc_amount) as A.
  unfold manualbuy_cmd, tryM, bindM, liftIO, liftR, emitM.
  rewrite P. cbn -[buy_with_usdc load_keypair]. rewrite L.
  cbn -[buy_with_usdc].
  destruct (buy_with_usdc cfg h n keypair usdc_amount) as [tb [res|e]];
    cbn in A |- *; (split; [reflexivity|]); split.
  - rewrite buy_amounts_app, A. destruct res; reflexivity.
  - eexists (_ :: tb), _, _. reflexivity.
  - rewrite buy_amounts_app, A. reflexivity.
  - eexists (_ :: tb), _, _. reflexivity.
Qed.

Lemma manualbuy_passes_amount_witness :
  buy_amounts
    (trace_of (manualbuy_cmd (live_config false) sample_host sample_net
                 ["-5"] STATE)) = [(-5)%float].
Proof.
  apply (manualbuy_passes_amount (live_config false) sample_host sample_net
           "-5" [] (-5)%float
           (mkKeypair (repeat 7 64) (pubkey sample_keypair)) STATE);
    reflexivity.
Defined.

(** ** More on the loop *)

(** The four ways a pass can end. *)
Lemma iteration_cases cfg h n keypair s :
  exists t s',
    monitor_iteration cfg h n keypair s = ((t ++ [Sleep 60])%list, s', Ok tt)
    /\ (List.length (buy_amounts t) <= 1)%nat
    /\ (s' = s \/ s' = sold s
        \/ exists price, s' = bought price s \/ s' = sold (bought price s)).
Proof.
  destruct (fetch_sol_24h_change_and_price n) as [[price pct24]|e] eqn:F.
  2:{ rewrite (monitor_iteration_fetch_raises cfg h n keypair e s F).
      exists [LogException "Monitor loop error: %s" e], s.
      repeat split; cbn; auto. }
  destruct (holding s) eqn:H.
  { rewrite (iteration_while_holding cfg h n keypair price pct24 s F H).
    destruct (take_profit_reached s price).
    - eexists [_; _], _. repeat split; cbn; auto.
    - eexists [_], _. repeat split; cbn; auto. }
  destruct (drop_reached s pct24) eqn:C.
  2:{ rewrite (iteration_flat_idle cfg h n keypair price pct24 s F H C).
      eexists [_], _. repeat split; cbn; auto. }
  pose proof (buy_with_usdc_amount cfg h n keypair 5%float) as A.
  destruct (buy_with_usdc cfg h n keypair 5%float) as [tb [res|e]] eqn:B;
    cbn in A.
  - rewrite (iteration_buy_ok cfg h n keypair price pct24 s tb res F H C B).
    cbn -[sell_step]. rewrite sell_step_eq.
    destruct (take_profit_reached (bought price s) price); cbn.
    + exists (LogInfo "SOL price ${price:.4f}, 24h change {pct24:.2f}%"
                [JFloat price; JFloat pct24]
              :: LogInfo "Condition met to BUY." []
              :: tb ++ [LogInfo "Buy response: %s" [res]; LogInfo SELL_MSG []])%list,
        (sold (bought price s)).
      repeat split.
      * cbn; rewrite <- ?app_assoc; reflexivity.
      * cbn. rewrite buy_amounts_app, A. destruct res; cbn; lia.
      * right; right. exists price. now right.
    + exists (LogInfo "SOL price ${price:.4f}, 24h change {pct24:.2f}%"
                [JFloat price; JFloat pct24]
              :: LogInfo "Condition met to BUY." []
              :: tb ++ [LogInfo "Buy response: %s" [res]])%list,
        (bought price s).
      repeat split.
      * cbn; rewrite <- ?app_assoc; reflexivity.
      * cbn. rewrite buy_amounts_app, A. destruct res; cbn; lia.
      * right; right. exists price. now left.
  - rewrite (iteration_buy_fails cfg h n keypair price pct24 s tb e F H C B).
    exists (LogInfo "SOL price ${price:.4f}, 24h change {pct24:.2f}%"
              [JFloat price; JFloat pct24]
            :: LogInfo "Condition met to BUY." []
            :: tb ++ [LogException "Buy failed: %s" e])%list, s.
    repeat split.
    + cbn; rewrite <- ?app_assoc; reflexivity.
    + cbn. rewrite buy_amounts_app, A. cbn; lia.
    + now left.
Qed.

(** X14. A pass of the loop never raises, whatever the feed, the libraries
    and Jupiter do: every exception ends in one of the two [except] clauses,
    and the pass finishes with the 60 second sleep, so the loop goes on. *)
Theorem monitor_iteration_survives cfg h n keypair s :
  value_of (monitor_iteration cfg h n keypair s) = Ok tt
  /\ exists t,
       trace_of (monitor_iteration cfg h n keypair s) = (t ++ [Sleep 60])%list.
Proof.
  destruct (iteration_cases cfg h n keypair s) as (t & s' & E & _).
  rewrite E. split; [reflexivity|now exists t].
Qed.

Lemma no_buy_while_holding cfg h n keypair s :
  holding s = true ->
  buy_amounts (trace_of (monitor_iteration cfg h n keypair s)) = [].
Proof.
  intros H.
  destruct (fetch_sol_24h_change_and_price n) as [[price pct24]|e] eqn:F.
  - rewrite (iteration_while_holding cfg h n keypair price pct24 s F H).
    destruct (take_profit_reached s price); reflexivity.
  - now rewrite (monitor_iteration_fetch_raises cfg h n keypair e s F).
Qed.

(** X15. A pass calls [buy_with_usdc] at most once, and not at all while a
    position is held. *)
Theorem at_most_one_buy cfg h n keypair s :
  (List.length (buy_amounts (trace_of (monitor_iteration cfg h n keypair s)))
   <= 1)%nat
  /\ (holding s = true ->
      buy_amounts (trace_of (monitor_iteration cfg h n keypair s)) = []).
Proof.
  split.
  - destruct (iteration_cases cfg h n keypair s) as (t & s' & E & L & _).
    rewrite E. cbn. rewrite buy_amounts_app, length_app. cbn. lia.
  - apply no_buy_while_holding.
Qed.

Lemma at_most_one_buy_witness :
  buy_amounts
    (trace_of (monitor_iteration dry_config sample_host sample_net
                 sample_keypair (holding_at 100 2))) = [].
Proof.
  apply (proj2 (at_most_one_buy dry_config sample_host sample_net
                  sample_keypair (holding_at 100 2))).
  reflexivity.
Defined.

(** X16. A pass never touches the two thresholds: only [/setbuy] and
    [/settp] write them. *)
Theorem pass_keeps_thresholds cfg h n keypair s :
  buy_drop_pct (state_of (monitor_iteration cfg h n keypair s)) = buy_drop_pct s
  /\ take_profit_pct (state_of (monitor_iteration cfg h n keypair s))
     = take_profit_pct s.
Proof.
  destruct (iteration_cases cfg h n keypair s)
    as (t & s' & E & _ & [->|[->|(price & [->| ->])]]);
    rewrite E; split; reflexivity.
Qed.

(** X17. In every state of a run the recorded position size is 0.0: the loop
    writes no other value and the handlers do not write it. *)
Theorem position_amount_always_zero cfg h s :
  reachable cfg h s -> position_amount_sol s = 0%float.
Proof.
  induction 1 as [|s n keypair R IH L|s c R IH].
  - reflexivity.
  - destruct (iteration_cases cfg h n keypair s)
      as (t & s' & E & _ & [->|[->|(price & [->| ->])]]);
      rewrite E; cbn; auto.
  - destruct (run_command_position cfg h c s) as (_ & _ & P).
    now rewrite P.
Qed.

Lemma position_amount_always_zero_witness :
  position_amount_sol
    (state_of (monitor_iteration dry_config sample_host sample_net
                 (mkKeypair (repeat 7 64) (pubkey sample_keypair)) STATE))
  = 0%float.
Proof.
  apply (position_amount_always_zero dry_config sample_host).
  apply reach_tick; [apply reach_init|reflexivity].
Defined.

Lemma not_self_equal_is_nan b :
  PrimFloat.eqb b b = false -> Prim2SF b = S754_nan.
Proof.
  rewrite FloatAxioms.eqb_spec. unfold SFeqb. intros E.
  destruct (Prim2SF b) as [s|s| |s m e] eqn:P; try reflexivity;
    rewrite SFcompare_refl in E by discriminate; discriminate E.
Qed.

(** X18. With a NaN threshold ([/setbuy nan] is accepted) the buy condition
    is false for every snapshot, so no pass ever buys. *)
Theorem nan_threshold_never_buys cfg h n keypair s :
  PrimFloat.eqb (buy_drop_pct s) (buy_drop_pct s) = false ->
  buy_amounts (trace_of (monitor_iteration cfg h n keypair s)) = [].
Proof.
  intros N. apply not_self_equal_is_nan in N.
  destruct (holding s) eqn:H.
  { now apply no_buy_while_holding. }
  destruct (fetch_sol_24h_change_and_price n) as [[price pct24]|e] eqn:F.
  - assert (C : drop_reached s pct24 = false).
    { unfold drop_reached. rewrite leb_spec, opp_spec, abs_spec, N.
      unfold SFleb. cbn. now rewrite SFcompare_nan_r. }
    now rewrite (iteration_flat_idle cfg h n keypair price pct24 s F H C).
  - now rewrite (monitor_iteration_fetch_raises cfg h n keypair e s F).
Qed.

Lemma nan_threshold_never_buys_witness :
  buy_amounts
    (trace_of (monitor_iteration dry_config sample_host (net_at 1 (-99))
                 sample_keypair (set_buy_drop_pct nan STATE))) = [].
Proof.
  apply (nan_threshold_never_buys dry_config sample_host (net_at 1 (-99))
           sample_keypair (set_buy_drop_pct nan STATE)).
  reflexivity.
Defined.

Lemma stranded_pass cfg h n keypair s entry :
  holding s = true ->
  last_buy_price s = Some entry ->
  float_truthy entry = false ->
  state_of (monitor_iteration cfg h n keypair s) = s.
Proof.
  intros H L T.
  destruct (fetch_sol_24h_change_and_price n) as [[price pct24]|e] eqn:F.
  - rewrite (iteration_while_holding cfg h n keypair price pct24 s F H).
    unfold take_profit_reached. rewrite L, H, T. reflexivity.
  - now rewrite (monitor_iteration_fetch_raises cfg h n keypair e s F).
Qed.

(** X19. A position whose recorded entry price is 0.0 (the feed said 0 when
    it was bought) is never closed by the loop: after any number of passes,
    at any prices, [STATE] is what it was. *)
Theorem zero_entry_price_strands cfg h keypair ns s entry :
  holding s = true ->
  last_buy_price s = Some entry ->
  float_truthy entry = false ->
  run_passes cfg h keypair ns s = s.
Proof.
  intros H L T. induction ns as [|n ns IH]; [reflexivity|].
  cbn. now rewrite (stranded_pass cfg h n keypair s entry H L T).
Qed.

Lemma zero_entry_price_strands_witness :
  run_passes dry_config sample_host sample_keypair
    [net_at 1 0; net_at 1000 50; net_at 150 (-6)] (holding_at 0 2)
  = holding_at 0 2.
Proof.
  apply (zero_entry_price_strands dry_config sample_host sample_keypair
           [net_at 1 0; net_at 1000 50; net_at 150 (-6)] (holding_at 0 2)
           0%float); reflexivity.
Defined.

(** X20. The take-profit test runs in the pass that bought. If the price
    already meets the target computed from itself (a target of 0% or below),
    the position is opened and closed in the same pass: one buy is executed,
    the sell is logged, and the pass ends flat. *)
Theorem buy_and_sell_in_one_pass cfg h n keypair s price pct24 tb res :
  fetch_sol_24h_change_and_price n = Ok (price, pct24) ->
  holding s = false ->
  drop_reached s pct24 = true ->
  buy_with_usdc cfg h n keypair 5%float = (tb, Ok res) ->
  float_truthy price = true ->
  PrimFloat.leb (target_price price (take_profit_pct s)) price = true ->
  state_of (monitor_iteration cfg h n keypair s) = sold (bought price s)
  /\ holding (state_of (monitor_iteration cfg h n keypair s)) = false
  /\ buy_amounts (trace_of (monitor_iteration cfg h n keypair s)) = [5%float]
  /\ sell_issued (trace_of (monitor_iteration cfg h n keypair s)) = true.
Proof.
  intros F H C B T P.
  pose proof (buy_with_usdc_amount cfg h n keypair 5%float) as A.
  rewrite B in A. cbn in A.
  rewrite (iteration_buy_ok cfg h n keypair price pct24 s tb res F H C B).
  cbn -[sell_step]. rewrite sell_step_eq.
  assert (R : take_profit_reached (bought price s) price = true).
  { unfold take_profit_reached.
    cbn -[target_price float_truthy]. now rewrite T, P. }
  rewrite R. cbn. repeat split.
  - rewrite buy_amounts_app, A. destruct res; reflexivity.
  - unfold sell_issued. rewrite existsb_app. cbn. apply orb_true_r.
Qed.

Lemma buy_and_sell_in_one_pass_witness :
  state_of (monitor_iteration dry_config sample_host sample_net sample_keypair
              (set_take_profit_pct 0 STATE))
  = sold (bought 150 (set_take_profit_pct 0 STATE)).
Proof.
  apply (buy_and_sell_in_one_pass dry_config sample_host sample_net
           sample_keypair (set_take_profit_pct 0 STATE) 150%float (-6)%float
           (fst (buy_with_usdc dry_config sample_host sample_net
                   sample_keypair 5%float))
           (simulated 5%float));
    reflexivity.
Defined.

(** ** The price feed *)

Ltac now_raise := let E := fresh "E" in intros E; cbn in E; discriminate E.

Section Feed.

Variable Decimal_of_str : string -> result (result float).

(** X21. The feed gives a price only from a JSON array whose first element
    is an object with a [current_price] that is a number or a parsable
    string: an empty answer, an object instead of an array, or a record
    without the price all raise. Later elements are not looked at. *)
Theorem fetch_needs_price response price pct24 :
  CoinGecko.fetch_sol_24h_change_and_price Decimal_of_str response
  = Ok (price, pct24) ->
  exists kv rest,
    response = Ok (JList (JDict kv :: rest))
    /\ dict_get kv "current_price" <> JNull
    /\ CoinGecko.Decimal_of_json Decimal_of_str (dict_get kv "current_price")
       = Ok (Ok price).
Proof.
  unfold CoinGecko.fetch_sol_24h_change_and_price.
  destruct response as [data|e]; [|now_raise].
  destruct data as [ |b|z|f|str|l|kv];
    try (destruct b); try (destruct str); try (destruct kv);
    try now_raise.
  - cbn. destruct (negb (z =? 0)); now_raise.
  - cbn. destruct (negb (float_truthy f)); now_raise.
  - destruct l as [|d rest]; [now_raise|].
    destruct d as [ |b|z|f|str|l'|kv]; try now_raise.
    cbn -[dict_get CoinGecko.Decimal_of_json].
    destruct (CoinGecko.Decimal_of_json Decimal_of_str
                (dict_get kv "current_price")) as [r|e] eqn:P;
      [|now_raise].
    cbn -[dict_get CoinGecko.Decimal_of_json].
    match goal with
    | |- context [bindR (CoinGecko.Decimal_of_json Decimal_of_str ?a) _] =>
        destruct (CoinGecko.Decimal_of_json Decimal_of_str a) as [r'|e]
    end; [|now_raise].
    destruct r as [p|e]; [|now_raise].
    destruct r' as [c|e]; [|now_raise].
    cbn. intros E. inversion E; subst.
    exists kv, rest. split; [reflexivity|]. split; [|exact P].
    intros N. rewrite N in P. discriminate P.
Qed.

Lemma fetch_absent_change kv rest price :
  dict_get kv "current_price" = JFloat price ->
  truthy (dict_get kv "price_change_percentage_24h") = false ->
  CoinGecko.fetch_sol_24h_change_and_price Decimal_of_str
    (Ok (JList (JDict kv :: rest))) = Ok (price, 0%float).
Proof.
  intros P C. unfold CoinGecko.fetch_sol_24h_change_and_price.
  cbn. rewrite P, C. reflexivity.
Qed.

(** X22. From a record with a float price the feed returns that price
    unchanged. A 24h change that is missing, [null], 0 or otherwise false is
    read as 0.0; a nonzero float change comes through unchanged, so the
    detour through [str] and [Decimal] loses nothing. *)
Theorem fetch_reads_record kv rest price :
  dict_get kv "current_price" = JFloat price ->
  (truthy (dict_get kv "price_change_percentage_24h") = false ->
   CoinGecko.fetch_sol_24h_change_and_price Decimal_of_str
     (Ok (JList (JDict kv :: rest))) = Ok (price, 0%float))
  /\ (forall change,
        dict_get kv "price_change_percentage_24h" = JFloat change ->
        float_truthy change = true ->
        CoinGecko.fetch_sol_24h_change_and_price Decimal_of_str
          (Ok (JList (JDict kv :: rest))) = Ok (price, change)).
Proof.
  intros P. split.
  - now apply fetch_absent_change.
  - intros change C T. unfold CoinGecko.fetch_sol_24h_change_and_price.
    cbn. rewrite P, C. cbn. rewrite T. reflexivity.
Qed.

(** X23. When the feed fails (the request raises, the answer is empty, or
    the first record has no [current_price]) the pass does nothing but log
    the error and sleep: [STATE] is unchanged, nothing is bought or sold, and
    Jupiter is not contacted. *)
Theorem feed_failure_skips_pass cfg h n keypair s response :
  (exists e, response = Raise e)
  \/ (exists data, response = Ok data /\ truthy data = false)
  \/ (exists kv rest, response = Ok (JList (JDict kv :: rest))
                      /\ dict_get kv "current_price" = JNull) ->
  exists e,
    monitor_iteration cfg h (with_feed Decimal_of_str response n) keypair s
    = ([LogException "Monitor loop error: %s" e; Sleep 60], s, Ok tt).
Proof.
  intros C.
  assert (exists e,
            CoinGecko.fetch_sol_24h_change_and_price Decimal_of_str response
            = Raise e) as [e E].
  { unfold CoinGecko.fetch_sol_24h_change_and_price.
    destruct C as [[e ->]|[(data & -> & T)|(kv & rest & -> & P)]].
    - now exists e.
    - cbn. rewrite T. cbn. eauto.
    - cbn. rewrite P. cbn. eauto. }
  exists e. now apply monitor_iteration_fetch_raises.
Qed.



End Feed.

Lemma fetch_needs_price_witness :
  exists kv rest,
    Ok (sample_record (JFloat 150) (JFloat (-6)))
      = Ok (JList (JDict kv :: rest))
    /\ dict_get kv "current_price" <> JNull
    /\ CoinGecko.Decimal_of_json no_strings (dict_get kv "current_price")
       = Ok (Ok 150%float).
Proof.
  apply (fetch_needs_price no_strings
           (Ok (sample_record (JFloat 150) (JFloat (-6)))) 150%float (-6)%float).
  reflexivity.
Defined.

Lemma fetch_reads_record_witness :
  CoinGecko.fetch_sol_24h_change_and_price no_strings
    (Ok (JList [JDict [("current_price", JFloat 150)]]))
  = Ok (150%float, 0%float)
  /\ CoinGecko.fetch_sol_24h_change_and_price no_strings
       (Ok (sample_record (JFloat 150) (JFloat (-6))))
     = Ok (150%float, (-6)%float).
Proof.
  split.
  - apply (proj1 (fetch_reads_record no_strings
                    [("current_price", JFloat 150)] [] 150%float eq_refl)).
    reflexivity.
  - apply (proj2 (fetch_reads_record no_strings
                    [("id", JStr "solana"); ("current_price", JFloat 150);
                     ("price_change_percentage_24h", JFloat (-6))] []
                    150%float eq_refl) (-6)%float); reflexivity.
Defined.

Lemma feed_failure_skips_pass_witness :
  exists e,
    monitor_iteration dry_config sample_host
      (with_feed no_strings (Ok (JList [])) sample_net) sample_keypair STATE
    = ([LogException "Monitor loop error: %s" e; Sleep 60], STATE, Ok tt).
Proof.
  apply (feed_failure_skips_pass no_strings dry_config sample_host sample_net
           sample_keypair STATE (Ok (JList []))).
  right; left. exists (JList []). split; reflexivity.
Defined.


(** ** The amount in native units *)

Lemma pos_lt_digits2 m : Zpos m < 2 ^ Zpos (digits2_pos m).
Proof.
  induction m as [p IH|p IH|]; cbn [digits2_pos].
  - rewrite Pos2Z.inj_succ, Z.pow_succ_r by lia. lia.
  - rewrite Pos2Z.inj_succ, Z.pow_succ_r by lia. lia.
  - reflexivity.
Qed.

Lemma valid_mantissa s m e :
  valid_binary (S754_finite s m e) = true -> Zpos m < 2 ^ 53.
Proof.
  unfold valid_binary, bounded, canonical_mantissa, fexp, emin, prec, emax.
  intros V. apply andb_prop in V as [V _]. apply Z.eqb_eq in V.
  pose proof (pos_lt_digits2 m) as D.
  assert (Zpos (digits2_pos m) <= 53) by lia.
  pose proof (Z.pow_le_mono_r 2 (Zpos (digits2_pos m)) 53 ltac:(lia) H) as L.
  lia.
Qed.

Lemma ndigits_fuel_spec fuel : forall c,
  1 <= c < 2 ^ Z.of_nat fuel ->
  1 <= ndigits_fuel fuel c
  /\ 10 ^ (ndigits_fuel fuel c - 1) <= c < 10 ^ ndigits_fuel fuel c.
Proof.
  induction fuel as [|f IH]; intros c [Hlo Hhi].
  - cbn in Hhi. lia.
  - cbn [ndigits_fuel]. destruct (c <? 10) eqn:L.
    + apply Z.ltb_lt in L. cbn. lia.
    + apply Z.ltb_ge in L.
      rewrite Nat2Z.inj_succ, Z.pow_succ_r in Hhi by lia.
      assert (Hq : 1 <= c / 10 < 2 ^ Z.of_nat f).
      { split.
        - apply Z.div_le_lower_bound; lia.
        - apply Z.div_lt_upper_bound; lia. }
      destruct (IH (c / 10) Hq) as (D1 & D2 & D3).
      set (d := ndigits_fuel f (c / 10)) in *.
      pose proof (Z.div_mod c 10 ltac:(lia)) as E.
      pose proof (Z.mod_pos_bound c 10 ltac:(lia)) as B.
      split; [lia|].
      replace (1 + d - 1) with (Z.succ (d - 1)) by lia.
      replace (1 + d) with (Z.succ d) by lia.
      rewrite !Z.pow_succ_r by lia. lia.
Qed.

Lemma ndigits_spec c :
  1 <= c -> 1 <= ndigits c /\ 10 ^ (ndigits c - 1) <= c < 10 ^ ndigits c.
Proof.
  intros H. apply ndigits_fuel_spec. split; [assumption|].
  rewrite Nat2Z.inj_succ, Z2Nat.id by apply Z.log2_nonneg.
  apply Z.log2_spec. lia.
Qed.

Lemma round_half_even_cases c r :
  round_half_even c r = c / 10 ^ r
  \/ (round_half_even c r = c / 10 ^ r + 1 /\ 10 ^ r <= 2 * (c mod 10 ^ r)).
Proof.
  unfold round_half_even.
  destruct (2 * (c mod 10 ^ r) <? 10 ^ r) eqn:A; [now left|].
  apply Z.ltb_ge in A.
  destruct (10 ^ r <? 2 * (c mod 10 ^ r)); [now right|].
  destruct (Z.even (c / 10 ^ r)); [now left|now right].
Qed.

(** Below 10^22 the rounding to 28 digits leaves the integer part alone: the
    digits it drops lie too far behind the point for a float times 10^6. *)
Lemma fix_trunc_exact M k :
  0 < M < 10 ^ 22 -> 0 < k ->
  decimal_trunc (fst (decimal_fix (M * 5 ^ k) (- k)))
                (snd (decimal_fix (M * 5 ^ k) (- k)))
  = M / 2 ^ k.
Proof.
  intros HM Hk.
  assert (P5 : 0 < 5 ^ k) by (apply Z.pow_pos_nonneg; lia).
  assert (P2 : 0 < 2 ^ k) by (apply Z.pow_pos_nonneg; lia).
  assert (P10 : 10 ^ k = 2 ^ k * 5 ^ k).
  { change 10 with (2 * 5). now rewrite Z.pow_mul_l. }
  assert (Hdiv : (M * 5 ^ k) / 10 ^ k = M / 2 ^ k).
  { rewrite P10. apply Z.div_mul_cancel_r; lia. }
  assert (Hc : 1 <= M * 5 ^ k) by nia.
  destruct (ndigits_spec (M * 5 ^ k) Hc) as (D1 & D2 & D3).
  unfold decimal_fix.
  set (c := M * 5 ^ k) in *. set (d := ndigits c) in *.
  destruct (d <=? 28) eqn:L; cbn [fst snd].
  - unfold decimal_trunc.
    replace (0 <=? - k) with false by (symmetry; apply Z.leb_gt; lia).
    now rewrite Z.opp_involutive.
  - apply Z.leb_gt in L.
    set (r := d - 28) in *.
    assert (Hr : 0 < r) by (unfold r; lia).
    assert (PT : 0 < 10 ^ r) by (apply Z.pow_pos_nonneg; lia).
    assert (E27 : 10 ^ (d - 1) = 10 ^ r * 10 ^ 27).
    { rewrite <- Z.pow_add_r by lia. f_equal. unfold r. lia. }
    rewrite E27 in D2.
    assert (HT : 10 ^ r * 10 ^ 5 < 5 ^ k).
    { assert (10 ^ r * 10 ^ 27 < 10 ^ 22 * 5 ^ k) by (unfold c in *; nia).
      change (10 ^ 27) with (10 ^ 5 * 10 ^ 22) in H.
      change (10 ^ 22) with 10000000000000000000000 in *.
      change (10 ^ 5) with 100000 in *. lia. }
    assert (Hrk : r < k).
    { destruct (Z.lt_ge_cases r k) as [|G]; [assumption|exfalso].
      pose proof (Z.pow_le_mono_r 10 k r ltac:(lia) G).
      pose proof (Z.pow_le_mono_l 5 10 k ltac:(lia)).
      change (10 ^ 5) with 100000 in HT. lia. }
    unfold decimal_trunc.
    replace (0 <=? - k + r) with false by (symmetry; apply Z.leb_gt; lia).
    replace (- (- k + r)) with (k - r) by lia.
    set (B := 10 ^ (k - r)).
    assert (PB : 0 < B) by (apply Z.pow_pos_nonneg; lia).
    assert (TB : 10 ^ r * B = 10 ^ k).
    { unfold B. rewrite <- Z.pow_add_r by lia. f_equal. lia. }
    assert (Hq : (c / 10 ^ r) / B = M / 2 ^ k).
    { rewrite Z.div_div by lia. now rewrite TB. }
    destruct (round_half_even_cases c r) as [->|[-> Hup]]; [exact Hq|].
    rewrite <- Hq.
    pose proof (Z.div_mod c (10 ^ r) ltac:(lia)) as Ec.
    pose proof (Z.mod_pos_bound c (10 ^ r) PT) as Bc.
    set (q := c / 10 ^ r) in *. set (rest := c mod 10 ^ r) in *.
    pose proof (Z.div_mod q B ltac:(lia)) as Eq.
    pose proof (Z.mod_pos_bound q B PB) as Bq.
    set (F := q / B) in *. set (s := q mod B) in *.
    destruct (Z.lt_ge_cases (s + 1) B) as [Hs|Hs].
    + symmetry. apply (Z.div_unique (q + 1) B F (s + 1)); lia.
    + exfalso. assert (Hs1 : s = B - 1) by lia.
      assert (Y : 5 ^ k * ((F + 1) * 2 ^ k - M) = 10 ^ r - rest).
      { replace (5 ^ k * ((F + 1) * 2 ^ k - M))
          with ((F + 1) * (2 ^ k * 5 ^ k) - M * 5 ^ k) by ring.
        rewrite <- P10, <- TB. fold c. rewrite Ec at 1.
        change (c / 10 ^ r) with q. rewrite Eq, Hs1.
        fold rest. ring. }
      set (Z0 := (F + 1) * 2 ^ k - M) in *.
      change (10 ^ 5) with 100000 in HT.
      clearbody Z0 rest. clear - Y Bc HT PT P5.
      assert (HZ : 0 < 5 ^ k * Z0 < 5 ^ k) by lia.
      destruct (Z.le_gt_cases Z0 0) as [N|N].
      * pose proof (Z.mul_nonneg_nonpos (5 ^ k) Z0 ltac:(lia) N). lia.
      * pose proof (Z.mul_le_mono_nonneg_l 1 Z0 (5 ^ k) ltac:(lia) ltac:(lia)).
        lia.
Qed.

(** X25. For every finite amount of magnitude below 10^22 the conversion is
    exact truncation toward zero of [amount * 10^6]: the 28-digit rounding of
    the decimal product never reaches the integer part. (0.29 gives 289999,
    since the float 0.29 is slightly below 29/100.) *)
Theorem amount_int_truncates x sign m e :
  Prim2SF x = S754_finite sign m e ->
  (0 <= e -> Zpos m * 2 ^ e < 10 ^ 22) ->
  amount_int x
  = Ok (let v := if 0 <=? e then Zpos m * 2 ^ e * 10 ^ 6
                 else (Zpos m * 10 ^ 6) / 2 ^ (- e) in
        if sign then - v else v).
Proof.
  intros P Hbig.
  pose proof (Prim2SF_valid x) as V. rewrite P in V.
  apply valid_mantissa in V.
  unfold amount_int. rewrite P. cbn zeta.
  destruct (0 <=? e) eqn:E.
  - apply Z.leb_le in E. specialize (Hbig E).
    assert (P2 : 0 < 2 ^ e) by (apply Z.pow_pos_nonneg; lia).
    assert (Hc : 1 <= Zpos m * 2 ^ e * 1000000) by nia.
    destruct (ndigits_spec _ Hc) as (D1 & D2 & D3).
    unfold decimal_fix.
    replace (ndigits (Zpos m * 2 ^ e * 1000000) <=? 28) with true.
    + unfold decimal_trunc. cbn [Z.leb Z.compare]. cbn.
      now rewrite Z.mul_1_r.
    + symmetry. apply Z.leb_le.
      assert (10 ^ (ndigits (Zpos m * 2 ^ e * 1000000) - 1) < 10 ^ 28).
      { eapply Z.le_lt_trans; [exact D2|].
        change (10 ^ 28) with (10 ^ 22 * 1000000). lia. }
      apply Z.pow_lt_mono_r_iff in H; lia.
  - apply Z.leb_gt in E.
    replace (Zpos m * 5 ^ (- e) * 1000000)
      with ((Zpos m * 10 ^ 6) * 5 ^ (- e)) by (change (10 ^ 6) with 1000000; ring).
    assert (HM : 0 < Zpos m * 10 ^ 6 < 10 ^ 22).
    { change (2 ^ 53) with 9007199254740992 in V.
      change (10 ^ 6) with 1000000.
      change (10 ^ 22) with 10000000000000000000000. lia. }
    pose proof (fix_trunc_exact (Zpos m * 10 ^ 6) (- e) HM ltac:(lia)) as X.
    rewrite Z.opp_involutive in X.
    destruct (decimal_fix (Zpos m * 10 ^ 6 * 5 ^ (- e)) e) as [c x'].
    cbn [fst snd] in X. now rewrite X.
Qed.

Lemma amount_int_truncates_witness :
  amount_int 0x1.28f5c28f5c28fp-2%float
  = Ok (let v := if 0 <=? -54 then 5224175567749775 * 2 ^ (-54) * 10 ^ 6
                 else (5224175567749775 * 10 ^ 6) / 2 ^ (- -54) in
        if false then - v else v)
  /\ (5224175567749775 * 10 ^ 6) / 2 ^ 54 = 289999.
Proof.
  split; [|reflexivity].
  apply (amount_int_truncates 0x1.28f5c28f5c28fp-2%float false
           5224175567749775%positive (-54)).
  - reflexivity.
  - intros H. lia.
Defined.

(** X26. The conversion is odd: a negative amount gives the negated result
    of the positive one (truncation is toward zero), and fails when it
    does. *)
Theorem amount_int_opp x :
  amount_int (PrimFloat.opp x)
  = match amount_int x with
    | Ok z => Ok (- z)
    | Raise e => Raise e
    end.
Proof.
  unfold amount_int. rewrite opp_spec.
  destruct (Prim2SF x) as [s|s| |s m e]; cbn [SFopp]; try reflexivity.
  cbn zeta.
  destruct (decimal_fix _ _) as [c x'].
  destruct s; cbn [negb]; [now rewrite Z.opp_involutive|reflexivity].
Qed.

Lemma is_infinite_spec x :
  PrimFloat.eqb (PrimFloat.abs x) infinity = true ->
  exists s, Prim2SF x = S754_infinity s.
Proof.
  rewrite FloatAxioms.eqb_spec, abs_spec.
  change (Prim2SF infinity) with (S754_infinity false).
  destruct (Prim2SF x) as [s|s| |s m e]; cbn; try discriminate.
  intros _. now exists s.
Qed.

(** X27. In live mode, where the host's conversion is the one above, an
    amount that is NaN or infinite ([/manualbuy nan], [/manualbuy inf])
    makes [buy_with_usdc] raise before anything is sent: no quote request, no
    signer. *)
Theorem non_finite_amount_sends_nothing cfg h n keypair x :
  DRY_RUN cfg = false ->
  usdc_units h x = amount_int x ->
  PrimFloat.eqb x x = false \/ PrimFloat.eqb (PrimFloat.abs x) infinity = true ->
  is_raise (snd (buy_with_usdc cfg h n keypair x)) = true
  /\ existsb external_event (fst (buy_with_usdc cfg h n keypair x)) = false.
Proof.
  intros D U N.
  assert (exists e, amount_int x = Raise e) as [e E].
  { unfold amount_int.
    destruct N as [N|N].
    - rewrite (not_self_equal_is_nan x N). eauto.
    - destruct (is_infinite_spec x N) as [s ->]. eauto. }
  unfold buy_with_usdc. rewrite D, U, E. split; reflexivity.
Qed.

Lemma non_finite_amount_sends_nothing_witness :
  is_raise (snd (buy_with_usdc (live_config true) sample_host sample_net
                   sample_keypair nan)) = true
  /\ existsb external_event
       (fst (buy_with_usdc (live_config true) sample_host sample_net
               sample_keypair nan)) = false.
Proof.
  apply (non_finite_amount_sends_nothing (live_config true) sample_host
           sample_net sample_keypair nan); try reflexivity.
  left. reflexivity.
Defined.

(** ** Failures on the way to the signer *)

(** X28. Without the SDK, an answer of the swap endpoint that carries no
    payload under [swapTransaction] or [swapTransactionSerialized] ends the
    call with "did not return a transaction payload", and nothing is decoded
    or deserialised. *)
Theorem missing_payload_raises cfg h n keypair x amount_int quote data kv :
  DRY_RUN cfg = false ->
  HAVE_JUPITER_SDK cfg = false ->
  usdc_units h x = Ok amount_int ->
  jupiter_quote n amount_int = Ok quote ->
  py_get quote "data" = Ok data ->
  truthy data = true ->
  jupiter_swap n quote (pubkey keypair) = Ok (JDict kv) ->
  truthy (dict_get kv "swapTransaction") = false ->
  truthy (dict_get kv "swapTransactionSerialized") = false ->
  buy_with_usdc cfg h n keypair x
  = ([LogInfo BUY_REQUESTED [JFloat x]; QuoteRequest amount_int;
      SwapBuildRequest quote (pubkey keypair)],
     Raise (RuntimeError NO_PAYLOAD_MSG)).
Proof.
  intros D S U Q G T W A B.
  unfold buy_with_usdc, get_jupiter_quote, request_jupiter_swap.
  rewrite D, S, U. cbn -[py_get]. rewrite Q. cbn -[py_get]. rewrite G.
  cbn -[py_get]. rewrite T. cbn -[py_get]. rewrite W. cbn.
  rewrite A. cbn. rewrite B. reflexivity.
Qed.

Lemma missing_payload_raises_witness :
  buy_with_usdc (live_config false) sample_host
    (mkNet (fetch_sol_24h_change_and_price sample_net)
       (jupiter_quote sample_net)
       (fun _ _ => Ok (JDict [("error", JStr "no route")]))
       (sdk_swap_from_quote sample_net))
    sample_keypair 5%float
  = ([LogInfo BUY_REQUESTED [JFloat 5]; QuoteRequest 5000000;
      SwapBuildRequest sample_quote (pubkey sample_keypair)],
     Raise (RuntimeError NO_PAYLOAD_MSG)).
Proof.
  apply (missing_payload_raises (live_config false) sample_host _
           sample_keypair 5%float 5000000 sample_quote
           (JList [JDict [("outAmount", JStr "33214377")]])
           [("error", JStr "no route")]); reflexivity.
Defined.

(** X29. When the SDK's swap raises, [buy_with_usdc] logs it and raises the
    same exception, and the pass of the loop that called it logs the failed
    buy and leaves [STATE] flat and unchanged. *)
Theorem sdk_failure_is_reraised cfg h n keypair s price pct24 amount_int
    quote data e :
  DRY_RUN cfg = false ->
  HAVE_JUPITER_SDK cfg = true ->
  usdc_units h 5%float = Ok amount_int ->
  jupiter_quote n amount_int = Ok quote ->
  py_get quote "data" = Ok data ->
  truthy data = true ->
  sdk_swap_from_quote n quote = Raise e ->
  fetch_sol_24h_change_and_price n = Ok (price, pct24) ->
  holding s = false ->
  drop_reached s pct24 = true ->
  buy_with_usdc cfg h n keypair 5%float
  = ([LogInfo BUY_REQUESTED [JFloat 5]; QuoteRequest amount_int;
      LogInfo USING_SDK_MSG []; SdkSwap keypair quote;
      LogException "SDK swap failed: %s" e], Raise e)
  /\ state_of (monitor_iteration cfg h n keypair s) = s
  /\ In (LogException "Buy failed: %s" e)
        (trace_of (monitor_iteration cfg h n keypair s)).
Proof.
  intros D S U Q G T X F H C.
  assert (B : buy_with_usdc cfg h n keypair 5%float
              = ([LogInfo BUY_REQUESTED [JFloat 5]; QuoteRequest amount_int;
                  LogInfo USING_SDK_MSG []; SdkSwap keypair quote;
                  LogException "SDK swap failed: %s" e], Raise e)).
  { unfold buy_with_usdc, get_jupiter_quote.
    rewrite D, S, U. cbn -[py_get]. rewrite Q. cbn -[py_get]. rewrite G.
    cbn -[py_get]. rewrite T. cbn. rewrite X. reflexivity. }
  split; [exact B|].
  rewrite (iteration_buy_fails cfg h n keypair price pct24 s _ e F H C B).
  split; [reflexivity|].
  cbn. do 7 right. left. reflexivity.
Qed.

Lemma sdk_failure_is_reraised_witness :
  state_of
    (monitor_iteration (live_config true) sample_host
       (mkNet (fetch_sol_24h_change_and_price sample_net)
          (jupiter_quote sample_net) (jupiter_swap sample_net)
          (fun _ => Raise (Other "TimeoutError")))
       sample_keypair STATE) = STATE.
Proof.
  apply (sdk_failure_is_reraised (live_config true) sample_host
           (mkNet (fetch_sol_24h_change_and_price sample_net)
              (jupiter_quote sample_net) (jupiter_swap sample_net)
              (fun _ => Raise (Other "TimeoutError")))
           sample_keypair STATE 150%float (-6)%float 5000000 sample_quote
           (JList [JDict [("outAmount", JStr "33214377")]])
           (Other "TimeoutError")); reflexivity.
Defined.
